(** * PDF text extraction scripts: text normalizer and extraction drivers

    Shallow embedding of
    - [src/extract_pdf_text.py]
      ([clean_unicode_text], [extract_pdf_text], script body),
    - [src/backend-unboxed/services/pymupdf_extractor.py]
      ([extract_text_from_pdf], [main]),
    - [src/backend-unboxed/services/pdf_extractor.py]
      ([extract_pdf_text], script body).

    A Python [str] is a list of code points.  The PDF library (PyMuPDF), the
    file system and the clock are a [World] record whose operations may
    raise; a run collects the outside calls it makes, with their outcome,
    and what it prints.  [unicodedata] is a pair of section variables.
    [json.dumps] and the encoding of the output streams are not modelled:
    a script prints the JSON value itself. *)

From Stdlib Require Import List NArith PeanoNat Lia Bool Ascii String.
From Stdlib Require DecimalString DecimalNat DecimalFacts.
Import ListNotations.

Set Warnings "-register-all".
Local Open Scope string_scope.
Local Open Scope list_scope.
Local Open Scope N_scope.

(* ------------------------------------------------------------------ *)
(** ** Python strings *)

Module Py.

Definition codepoint := N.
Definition str := list codepoint.

(** A source literal made of ASCII characters. *)
Fixpoint lit (s : String.string) : str :=
  match s with
  | EmptyString => []
  | String a s' => N_of_ascii a :: lit s'
  end.

(** [text.replace(old, new)] for a one-character [old]. *)
Fixpoint replace (old : codepoint) (new : str) (text : str) : str :=
  match text with
  | [] => []
  | c :: rest =>
      (if N.eqb c old then new else [c]) ++ replace old new rest
  end.

(** [sep.join(parts)]. *)
Fixpoint join (sep : str) (parts : list str) : str :=
  match parts with
  | [] => []
  | [p] => p
  | p :: rest => p ++ sep ++ join sep rest
  end.

(** [s.encode('ascii', 'ignore').decode('ascii')]: code points that
    ASCII cannot encode are dropped. *)
Definition encode_ascii_ignore (s : str) : str :=
  filter (fun c => N.ltb c 128) s.

(** [c.isspace()], the white-space code points of CPython 3. *)
Definition isspace (c : codepoint) : bool :=
  ((9 <=? c) && (c <=? 13)) || ((28 <=? c) && (c <=? 32))
  || (c =? 0x85) || (c =? 0xA0) || (c =? 0x1680)
  || ((0x2000 <=? c) && (c <=? 0x200A))
  || (c =? 0x2028) || (c =? 0x2029) || (c =? 0x202F)
  || (c =? 0x205F) || (c =? 0x3000).

Fixpoint lstrip (s : str) : str :=
  match s with
  | [] => []
  | c :: rest => if isspace c then lstrip rest else s
  end.

Definition rstrip (s : str) : str := rev (lstrip (rev s)).

(** [s.strip()]. *)
Definition strip (s : str) : str := rstrip (lstrip s).

(** Truth value of a string: non-empty. *)
Definition truthy (s : str) : bool :=
  match s with [] => false | _ => true end.

(** [str(n)] / [f"{n}"] for a non-negative integer. *)
Definition str_of_nat (n : nat) : str :=
  lit (DecimalString.NilEmpty.string_of_uint (Nat.to_uint n)).

(** The line feed of a source literal. *)
Definition nl : str := [10].

(** [a == b] on strings. *)
Fixpoint str_eqb (a b : str) : bool :=
  match a, b with
  | [], [] => true
  | x :: a', y :: b' => N.eqb x y && str_eqb a' b'
  | _, _ => false
  end.

End Py.

Import Py.

(** Outcome of a call that may raise: the value returned, or the message
    ([str(e)]) of the exception, an [Exception] as far as the scripts are
    concerned. *)
Inductive outcome (A : Type) : Type :=
| Returns (a : A)
| Raises (msg : str).

Arguments Returns {A} a.
Arguments Raises {A} msg.

(* ------------------------------------------------------------------ *)
(** ** JSON values, the outside world and the effect monad *)

(** What the scripts hand to [json.dumps]. *)
Inductive json : Type :=
| JNull
| JBool (b : bool)
| JInt (n : nat)
| JStr (s : str)
| JList (items : list json)
| JDict (fields : list (String.string * json)).

(** [d[key]] read back from a dict literal. *)
Fixpoint assoc {V : Type} (key : String.string) (fields : list (String.string * V))
  : option V :=
  match fields with
  | [] => None
  | (k, v) :: rest => if String.eqb key k then Some v else assoc key rest
  end.

Definition dict_get (key : String.string) (j : json) : option json :=
  match j with
  | JDict fields => assoc key fields
  | _ => None
  end.

(** The page handle of the PDF library. *)
Record Page : Type := {
  get_text : outcome str             (* page.get_text() *)
}.

(** The document handle of the PDF library. *)
Record Document : Type := {
  metadata : outcome (list (String.string * str));   (* doc.metadata *)
  page_count : outcome nat;          (* doc.page_count, len(doc) *)
  load_page : nat -> outcome Page;   (* doc.load_page(i), doc[i] *)
  close : outcome unit               (* doc.close() *)
}.

(** Everything outside the scripts. *)
Record World : Type := {
  path_exists : str -> bool;             (* os.path.exists *)
  exists_error : str -> option str;      (* see [pathlib_exists] *)
  stat_size : str -> outcome nat;        (* Path(p).stat().st_size *)
  fitz_open : str -> outcome Document;   (* fitz.open *)
  now_isoformat : str                    (* datetime.now().isoformat() *)
}.

(** Calls that leave the script. *)
Inductive call : Type :=
| PathExists (path : str)
| PathStat (path : str)
| FitzOpen (path : str)
| DocMetadata
| DocPageCount
| DocLoadPage (page_num : nat)
| PageGetText (page_num : nat)
| DocClose.

(** What an observer of a run sees. *)
Inductive event : Type :=
| Ok (c : call)
| Failed (c : call) (msg : str)
| Stdout (s : str)
| StdoutJson (j : json)
| Stderr (s : str).



Definition failed_event (e : event) : bool :=
  match e with
  | Failed _ _ => true
  | _ => false
  end.

(** A computation reads the world and returns or raises; the events it
    causes are collected in order. *)
Definition M (A : Type) : Type := World -> outcome A * list event.

Definition ret {A : Type} (a : A) : M A :=
  fun _ => (Returns a, []).

Definition bind {A B : Type} (m : M A) (k : A -> M B) : M B :=
  fun w =>
    match m w with
    | (Returns a, ev) => let (r, ev') := k a w in (r, ev ++ ev')
    | (Raises e, ev) => (Raises e, ev)
    end.

Notation "x <- m ;; k" := (bind m (fun x => k))
  (at level 61, m at next level, right associativity).
Notation "m ;;; k" := (bind m (fun _ => k))
  (at level 61, right associativity).

(** [try: body / except Exception as e: handler e]. *)
Definition try_except {A : Type} (body : M A) (handler : str -> M A) : M A :=
  fun w =>
    match body w with
    | (Returns a, ev) => (Returns a, ev)
    | (Raises e, ev) => let (r, ev') := handler e w in (r, ev ++ ev')
    end.

(** An outside call: its outcome is logged, an exception propagates. *)
Definition invoke {A : Type} (c : call) (r : outcome A) : M A :=
  fun _ =>
    match r with
    | Returns a => (Returns a, [Ok c])
    | Raises e => (Raises e, [Failed c e])
    end.

Definition emit (e : event) : M unit :=
  fun _ => (Returns tt, [e]).

(** [os.path.exists(path)]: it answers [False] to every error of the
    underlying [stat] and never raises. *)
Definition os_path_exists (path : str) : M bool :=
  fun w => (Returns (path_exists w path), [Ok (PathExists path)]).

(** [Path(path).exists()].  Both existence tests [stat] the path.
    [os.path.exists] answers [False] to every [OSError]; [Path.exists]
    answers [False] only when the error says that there is no such file
    (ENOENT, ENOTDIR, EBADF, ELOOP) and raises any other one, such as
    ENAMETOOLONG: [exists_error] gives the message of that error for a
    path that does not exist. *)
Definition pathlib_exists (path : str) : M bool :=
  fun w =>
    invoke (PathExists path)
           (if path_exists w path then Returns true
            else match exists_error w path with
                 | Some msg => Raises msg
                 | None => Returns false
                 end) w.

Definition path_stat_st_size (path : str) : M nat :=
  fun w => invoke (PathStat path) (stat_size w path) w.

Definition fitz_open_ (path : str) : M Document :=
  fun w => invoke (FitzOpen path) (fitz_open w path) w.

Definition datetime_now_isoformat : M str :=
  fun w => (Returns (now_isoformat w), []).

(** [doc.metadata.get(key, "")]. *)
Definition doc_metadata_get (doc : Document) (key : String.string) : M str :=
  md <- invoke DocMetadata (metadata doc) ;;
  ret (match assoc key md with Some v => v | None => [] end).

Definition doc_page_count (doc : Document) : M nat :=
  invoke DocPageCount (page_count doc).

Definition doc_load_page (doc : Document) (page_num : nat) : M Page :=
  invoke (DocLoadPage page_num) (load_page doc page_num).

Definition page_get_text (page_num : nat) (page : Page) : M str :=
  invoke (PageGetText page_num) (get_text page).

Definition doc_close (doc : Document) : M unit :=
  invoke DocClose (close doc).

Definition run {A : Type} (m : M A) (w : World) : outcome A * list event :=
  m w.

Definition result_of {A : Type} (m : M A) (w : World) : outcome A :=
  fst (run m w).

(** The events of a run, oldest first. *)
Definition trace_of {A : Type} (m : M A) (w : World) : list event :=
  snd (run m w).

(* ------------------------------------------------------------------ *)
(** ** [unicodedata] *)

(** The values of [unicodedata.category]. *)
Inductive general_category : Type :=
| Lu | Ll | Lt | Lm | Lo
| Mn | Mc | Me
| Nd | Nl | No
| Pc | Pd | Ps | Pe | Pi | Pf | Po
| Sm | Sc | Sk | So
| Zs | Zl | Zp
| Cc | Cf | Cs | Co | Cn.

(** [category(char)[0]]. *)
Definition first_letter (g : general_category) : ascii :=
  match g with
  | Lu | Ll | Lt | Lm | Lo => "L"
  | Mn | Mc | Me => "M"
  | Nd | Nl | No => "N"
  | Pc | Pd | Ps | Pe | Pi | Pf | Po => "P"
  | Sm | Sc | Sk | So => "S"
  | Zs | Zl | Zp => "Z"
  | Cc | Cf | Cs | Co | Cn => "C"
  end%char.

(* ------------------------------------------------------------------ *)
(** ** [src/extract_pdf_text.py] *)

Module ExtractPdfText.

(** The [replacements] dict, in insertion order. *)
Definition replacements : list (codepoint * str) :=
  [ (0xF084, lit " ");    (* Private Use Area character *)
    (0x02DA, [0xB0]);     (* ring above -> degree sign *)
    (0xF0B0, [0xB0]);     (* Private Use Area character -> degree sign *)
    (0x2019, lit "'");    (* right single quotation mark *)
    (0x201C, [34]);       (* left double quotation mark -> quotation mark *)
    (0x201D, [34]);       (* right double quotation mark -> quotation mark *)
    (0x2013, lit "-");    (* en dash *)
    (0x2014, lit "-");    (* em dash *)
    (0x00A0, lit " ") ].  (* no-break space *)

(** [for old_char, new_char in replacements.items():
       text = text.replace(old_char, new_char)] *)
Definition apply_replacements (text : str) : str :=
  fold_left (fun text kv => replace (fst kv) (snd kv) text) replacements text.

(** [c in replacements]. *)
Definition is_key (c : codepoint) : bool :=
  existsb (fun kv => N.eqb c (fst kv)) replacements.

Section Unicodedata.

(** [unicodedata.category] and [unicodedata.normalize('NFKD', _)] on a
    one-character string; the latter may raise. *)
Variable category : codepoint -> general_category.
Variable normalize_NFKD : codepoint -> outcome str.

Definition in_LNPSZ (g : general_category) : bool :=
  existsb (Ascii.eqb (first_letter g)) ["L"; "N"; "P"; "S"; "Z"]%char.

(** [len(normalized) == 1 and ord(normalized) < 256] *)
Definition single_below_256 (normalized : str) : bool :=
  match normalized with
  | [d] => N.ltb d 256
  | _ => false
  end.

(** The body of the [try:] of the loop; what it appends, or the
    exception that leaves it. *)
Definition try_normalize (char : codepoint) : outcome str :=
  match normalize_NFKD char with
  | Raises e => Raises e
  | Returns normalized =>
      if single_below_256 normalized then Returns normalized
      else
        match normalize_NFKD char with
        | Raises e => Raises e
        | Returns decomposed =>
            let ascii_equiv := encode_ascii_ignore decomposed in
            Returns (if truthy ascii_equiv then ascii_equiv else lit " ")
        end
  end.

(** One iteration of [for char in text:]: the string appended to
    [cleaned_chars]. *)
Definition clean_char (char : codepoint) : str :=
  if N.ltb char 128 then [char]
  else if N.leb 160 char && N.ltb char 256 then [char]
  else if in_LNPSZ (category char) then
    match try_normalize char with
    | Returns s => s
    | Raises _ => lit " "
    end
  else lit " ".

Definition clean_loop (text : str) : list str :=
  fold_left (fun cleaned_chars char => cleaned_chars ++ [clean_char char])
            text [].

Definition clean_unicode_text (text : str) : str :=
  let text := apply_replacements text in
  let cleaned_chars := clean_loop text in
  join [] cleaned_chars.

(** The loop of [extract_pdf_text] over the page numbers still to visit;
    [text_parts] is the list built so far. *)
Fixpoint page_loop (doc : Document) (page_nums : list nat)
    (text_parts : list str) : M (list str) :=
  match page_nums with
  | [] => ret text_parts
  | page_num :: rest =>
      page <- doc_load_page doc page_num ;;
      text <- page_get_text page_num page ;;
      if truthy (strip text) then
        let cleaned_text := clean_unicode_text text in
        page_loop doc rest
          (text_parts ++
             [lit "--- Page " ++ str_of_nat (page_num + 1) ++ lit " ---"
                ++ nl ++ cleaned_text])
      else page_loop doc rest text_parts
  end.

(** The body of the [try:] of [extract_pdf_text]. *)
Definition extract_pdf_text_try (pdf_path : str) : M str :=
  doc <- fitz_open_ pdf_path ;;
  n <- doc_page_count doc ;;
  text_parts <- page_loop doc (seq 0 n) [] ;;
  doc_close doc ;;;
  let full_text := join (nl ++ nl) text_parts in
  ret full_text.

Definition extract_pdf_text (pdf_path : str) : M str :=
  try_except
    (extract_pdf_text_try pdf_path)
    (fun e =>
       emit (Stderr (lit "Error extracting PDF: " ++ e)) ;;;
       ret []).

(** The script body; the value is the exit status of the process. *)
Definition main (argv : list str) : M nat :=
  if negb (Nat.eqb (List.length argv) 2) then
    emit (Stderr (lit "Usage: python extract_pdf_text.py <pdf_file_path>")) ;;;
    ret 1%nat
  else
    let pdf_path := nth 1 argv [] in
    extracted_text <- extract_pdf_text pdf_path ;;
    if truthy extracted_text then
      emit (Stdout extracted_text) ;;;
      ret 0%nat
    else
      emit (Stderr (lit "Failed to extract text from PDF")) ;;;
      ret 1%nat.

End Unicodedata.

End ExtractPdfText.

(* ------------------------------------------------------------------ *)
(** ** [src/backend-unboxed/services/pymupdf_extractor.py] *)

Module PymupdfExtractor.

(** The page loop; the accumulator is [(full_text, page_texts)]. *)
Fixpoint page_loop (doc : Document) (page_nums : list nat)
    (acc : str * list json) : M (str * list json) :=
  match page_nums with
  | [] => ret acc
  | page_num :: rest =>
      let (full_text, page_texts) := acc in
      page <- doc_load_page doc page_num ;;
      page_text <- page_get_text page_num page ;;
      let page_texts :=
        page_texts ++
          [JDict [("pageNumber", JInt (page_num + 1));
                  ("text", JStr page_text);
                  ("charCount", JInt (List.length page_text))]] in
      let full_text :=
        full_text ++ (nl ++ lit "=== PAGE " ++ str_of_nat (page_num + 1)
                         ++ lit " ===" ++ nl) in
      let full_text := full_text ++ page_text in
      let full_text := full_text ++ nl in
      page_loop doc rest (full_text, page_texts)
  end.

(** The body of the [try:] of [extract_text_from_pdf]. *)
Definition extract_text_from_pdf_try (pdf_path : str) : M json :=
  found <- os_path_exists pdf_path ;;
  if negb found then
    ret (JDict [("success", JBool false);
                ("error", JStr (lit "File not found: " ++ pdf_path));
                ("text", JStr []);
                ("metadata", JDict [])])
  else
    doc <- fitz_open_ pdf_path ;;
    title <- doc_metadata_get doc "title" ;;
    author <- doc_metadata_get doc "author" ;;
    subject <- doc_metadata_get doc "subject" ;;
    creator <- doc_metadata_get doc "creator" ;;
    producer <- doc_metadata_get doc "producer" ;;
    creationDate <- doc_metadata_get doc "creationDate" ;;
    modDate <- doc_metadata_get doc "modDate" ;;
    pageCount <- doc_page_count doc ;;
    extractionTime <- datetime_now_isoformat ;;
    let metadata :=
      JDict [("title", JStr title);
             ("author", JStr author);
             ("subject", JStr subject);
             ("creator", JStr creator);
             ("producer", JStr producer);
             ("creationDate", JStr creationDate);
             ("modDate", JStr modDate);
             ("pageCount", JInt pageCount);
             ("extractionMethod", JStr (lit "PyMuPDF"));
             ("extractionTime", JStr extractionTime)] in
    n <- doc_page_count doc ;;
    acc <- page_loop doc (seq 0 n) ([], []) ;;
    let (full_text, page_texts) := acc in
    doc_close doc ;;;
    let clean_text := strip full_text in
    let clean_text := encode_ascii_ignore clean_text in
    ret (JDict [("success", JBool true);
                ("error", JNull);
                ("text", JStr clean_text);
                ("metadata", metadata);
                ("pages", JList page_texts);
                ("totalCharacters", JInt (List.length clean_text));
                ("processingTime", JStr (lit "local"))]).

Definition extract_text_from_pdf (pdf_path : str) : M json :=
  try_except
    (extract_text_from_pdf_try pdf_path)
    (fun e =>
       ret (JDict [("success", JBool false);
                   ("error", JStr e);
                   ("text", JStr []);
                   ("metadata", JDict []);
                   ("pages", JList [])])).

(** [main()]; the value is the exit status of the process. *)
Definition main (argv : list str) : M nat :=
  if Nat.ltb (List.length argv) 2 then
    emit (StdoutJson
            (JDict [("success", JBool false);
                    ("error",
                     JStr (lit "Usage: python pymupdf_extractor.py <pdf_path>"))
                   ])) ;;;
    ret 1%nat
  else
    let pdf_path := nth 1 argv [] in
    result <- extract_text_from_pdf pdf_path ;;
    emit (StdoutJson result) ;;;
    ret 0%nat.

End PymupdfExtractor.

(* ------------------------------------------------------------------ *)
(** ** [src/backend-unboxed/services/pdf_extractor.py] *)

Module PdfExtractor.

(** The page loop; the accumulator is [(full_text, page_texts)]. *)
Fixpoint page_loop (doc : Document) (page_nums : list nat)
    (acc : str * list json) : M (str * list json) :=
  match page_nums with
  | [] => ret acc
  | page_num :: rest =>
      let (full_text, page_texts) := acc in
      page <- doc_load_page doc page_num ;;
      page_text <- page_get_text page_num page ;;
      let page_texts := page_texts ++ [JStr page_text] in
      let full_text := full_text ++ (page_text ++ nl) in
      page_loop doc rest (full_text, page_texts)
  end.

(** The body of the [try:] of [extract_pdf_text]. *)
Definition extract_pdf_text_try (pdf_path : str) : M json :=
  found <- pathlib_exists pdf_path ;;
  if negb found then
    ret (JDict [("success", JBool false);
                ("error", JStr (lit "File not found: " ++ pdf_path));
                ("text", JStr []);
                ("metadata", JDict [])])
  else
    doc <- fitz_open_ pdf_path ;;
    n <- doc_page_count doc ;;
    acc <- page_loop doc (seq 0 n) ([], []) ;;
    let (full_text, page_texts) := acc in
    file_size <- path_stat_st_size pdf_path ;;
    pageCount <- doc_page_count doc ;;
    let result :=
      JDict [("success", JBool true);
             ("text", JStr (strip full_text));
             ("totalCharacters", JInt (List.length (strip full_text)));
             ("metadata",
              JDict [("pageCount", JInt pageCount);
                     ("fileSize", JInt file_size);
                     ("extractionMethod", JStr (lit "PyMuPDF-Python"));
                     ("extractionTime", JStr []);
                     ("pages", JList page_texts)])] in
    doc_close doc ;;;
    ret result.

Definition extract_pdf_text (pdf_path : str) : M json :=
  try_except
    (extract_pdf_text_try pdf_path)
    (fun e =>
       ret (JDict [("success", JBool false);
                   ("error", JStr (lit "PDF extraction failed: " ++ e));
                   ("text", JStr []);
                   ("metadata", JDict [])])).

(** The script body; the value is the exit status of the process. *)
Definition main (argv : list str) : M nat :=
  if negb (Nat.eqb (List.length argv) 2) then
    emit (StdoutJson
            (JDict [("success", JBool false);
                    ("error",
                     JStr (lit "Usage: python pdf_extractor.py <pdf_path>"));
                    ("text", JStr []);
                    ("metadata", JDict [])])) ;;;
    ret 1%nat
  else
    let pdf_path := nth 1 argv [] in
    result <- extract_pdf_text pdf_path ;;
    emit (StdoutJson result) ;;;
    ret 0%nat.

End PdfExtractor.

(** The JSON-producing extractors. *)
Definition json_extractors : list (str -> M json) :=
  [PymupdfExtractor.extract_text_from_pdf; PdfExtractor.extract_pdf_text].

(* ------------------------------------------------------------------ *)
(** ** Sample data: a fragment of the Unicode database, small documents *)

Module Samples.

(** General categories of a few code points (Unicode 14); the C0 and C1
    controls are [Cc], what is not listed counts as unassigned. *)
Definition category (c : codepoint) : general_category :=
  if c =? 0xFB01 then Ll        (* LATIN SMALL LIGATURE FI *)
  else if c =? 0x212A then Lu   (* KELVIN SIGN *)
  else if c =? 0x2026 then Po   (* HORIZONTAL ELLIPSIS *)
  else if c =? 0xFFE0 then Sc   (* FULLWIDTH CENT SIGN *)
  else if c =? 0x4E2D then Lo   (* CJK UNIFIED IDEOGRAPH-4E2D *)
  else if c =? 0x200B then Cf   (* ZERO WIDTH SPACE *)
  else if (c <? 32) || ((127 <=? c) && (c <? 160)) then Cc
  else Cn.

(** Compatibility decompositions of the same code points. *)
Definition normalize_NFKD (c : codepoint) : outcome str :=
  if c =? 0xFB01 then Returns (lit "fi")
  else if c =? 0x212A then Returns (lit "K")
  else if c =? 0x2026 then Returns (lit "...")
  else if c =? 0xFFE0 then Returns [0xA2]
  else Returns [c].


Definition mixed_text : str :=
  lit "Caf" ++ [0xE9; 0x2019; 0xF084; 0xFB01; 0xFFE0; 0x85; 0x4E2D; 0xA0].

Definition text_page (t : str) : outcome Page :=
  Returns {| get_text := Returns t |}.

(** A document with the given pages and no metadata. *)
Definition pdf (pages : list (outcome Page)) : Document :=
  {| metadata := Returns [];
     page_count := Returns (List.length pages);
     load_page := fun i => nth i pages (Raises (lit "page not in document"));
     close := Returns tt |}.

(** A file system holding the given files; a name of more than 255
    characters is too long for it. *)
Definition disk (files : list (str * outcome Document)) : World :=
  {| path_exists := fun p => existsb (fun f => str_eqb p (fst f)) files;
     exists_error := fun p =>
       if (255 <? List.length p)%nat
       then Some (lit "[Errno 36] File name too long")
       else None;
     stat_size := fun p =>
       if existsb (fun f => str_eqb p (fst f)) files then Returns 1024%nat
       else Raises (lit "No such file or directory");
     fitz_open := fun p =>
       match find (fun f => str_eqb p (fst f)) files with
       | Some f => snd f
       | None => Raises (lit "no such file: " ++ p)
       end;
     now_isoformat := lit "2024-01-01T00:00:00" |}.

Definition hello_pdf : Document := pdf [text_page (lit "Hello")].

(** Three pages, the second one blank. *)
Definition gap_pdf : Document :=
  pdf [text_page (lit "A"); text_page (lit " " ++ nl); text_page (lit "B")].

(** Opens, but the first page cannot be loaded. *)
Definition broken_pdf : Document :=
  pdf [Raises (lit "cannot load page")].

Definition sample_world : World :=
  disk [(lit "hello.pdf", Returns hello_pdf);
        (lit "gap.pdf", Returns gap_pdf);
        (lit "broken.pdf", Returns broken_pdf);
        (lit "corrupt.pdf", Raises (lit "cannot open broken document"))].

End Samples.

(* ------------------------------------------------------------------ *)
(** ** Vocabulary of the properties *)

Import ExtractPdfText.

(** The code points the normalizer lets through unchanged. *)
Definition passes (c : codepoint) : Prop := c < 128 \/ (160 <= c /\ c <= 255).

(** [passes], and not a key of the replacement table. *)
Definition settled (c : codepoint) : Prop := c < 128 \/ (160 < c /\ c <= 255).

(** What the replacement loop makes of one character: the table entry of
    a key, the character itself otherwise. *)
Definition substitute (c : codepoint) : str :=
  match find (fun kv => N.eqb c (fst kv)) replacements with
  | Some kv => snd kv
  | None => [c]
  end.

(** The marker line of a page, line feed included. *)
Definition page_marker (number : nat) : str :=
  lit "--- Page " ++ str_of_nat number ++ lit " ---" ++ nl.

(** The parts the plain-text extractor is to assemble from the page texts
    of a document, the first of which is page [first + 1]: a page whose
    text is empty or white space contributes nothing, any other page its
    marker line and its cleaned text. *)
Fixpoint page_parts (category : codepoint -> general_category)
    (normalize_NFKD : codepoint -> outcome str)
    (first : nat) (texts : list str) : list str :=
  match texts with
  | [] => []
  | text :: rest =>
      if truthy (strip text) then
        (page_marker (first + 1)
           ++ ExtractPdfText.clean_unicode_text category normalize_NFKD text)
          :: page_parts category normalize_NFKD (S first) rest
      else page_parts category normalize_NFKD (S first) rest
  end.

(** The document has exactly the pages with the given texts, and every
    one of them can be loaded and read. *)
Definition has_pages (doc : Document) (texts : list str) : Prop :=
  page_count doc = Returns (List.length texts)
  /\ forall i text,
       nth_error texts i = Some text ->
       exists page,
         load_page doc i = Returns page /\ get_text page = Returns text.

Definition is_digit (c : codepoint) : Prop := 48 <= c /\ c <= 57.

(** The events end with a successful [doc.close()]. *)
Definition ends_with_close (ev : list event) : Prop :=
  exists before, ev = before ++ [Ok DocClose].

(** The traces of the runs of the three extraction entry points. *)
Inductive extraction_trace (w : World) (pdf_path : str)
  : list event -> Prop :=
| plain_trace (category : codepoint -> general_category)
    (normalize_NFKD : codepoint -> outcome str) :
    extraction_trace w pdf_path
      (trace_of (ExtractPdfText.extract_pdf_text category normalize_NFKD
                   pdf_path) w)
| pymupdf_trace :
    extraction_trace w pdf_path
      (trace_of (PymupdfExtractor.extract_text_from_pdf pdf_path) w)
| pdf_extractor_trace :
    extraction_trace w pdf_path
      (trace_of (PdfExtractor.extract_pdf_text pdf_path) w).

(** An existence test on the path: its one outside call; it answers
    [true] when the path exists; when it does not, it answers [false] or
    raises. *)
Definition existence_test (pdf_path : str) (test : M bool) : Prop :=
  forall w,
    (path_exists w pdf_path = true ->
     test w = (Returns true, [Ok (PathExists pdf_path)]))
    /\ (path_exists w pdf_path = false ->
        test w = (Returns false, [Ok (PathExists pdf_path)])
        \/ exists msg,
             test w = (Raises msg, [Failed (PathExists pdf_path) msg])).

(** No outside call failed. *)
Definition quiet (ev : list event) : Prop :=
  Forall (fun e => failed_event e = false) ev.

(** A computation that returns saw no failure; an exception is that of
    a failed outside call, which is then the last event. *)
Definition faithful {A : Type} (m : M A) : Prop :=
  forall w,
    match m w with
    | (Returns _, ev) => quiet ev
    | (Raises msg, ev) =>
        exists pre c, ev = pre ++ [Failed c msg] /\ quiet pre
    end.

(** [Q] holds of the value and the events whenever the computation
    returns. *)
Definition on_return {A : Type} (Q : A -> list event -> Prop) (m : M A)
  : Prop :=
  forall w a ev, m w = (Returns a, ev) -> Q a ev.

(** The value a JSON extractor returns reports its own text length. *)
Definition counts_its_text (j : json) (_ : list event) : Prop :=
  dict_get "success" j = Some (JBool true) ->
  exists text,
    dict_get "text" j = Some (JStr text)
    /\ dict_get "totalCharacters" j = Some (JInt (List.length text)).

(** The normalizer as one decision per character: the table entry of a
    key, what the classification loop appends otherwise. *)
Definition normalize_char (category : codepoint -> general_category)
    (normalize_NFKD : codepoint -> outcome str) (c : codepoint) : str :=
  match find (fun kv => N.eqb c (fst kv)) replacements with
  | Some kv => snd kv
  | None => ExtractPdfText.clean_char category normalize_NFKD c
  end.

(** The event is an outside call, returned or raised. *)
Definition outside_call (e : event) : bool :=
  match e with
  | Ok _ | Failed _ _ => true
  | _ => false
  end.

(** All the computation does to the outside is to call it. *)
Definition calls_only {A : Type} (m : M A) : Prop :=
  forall w, Forall (fun e => outside_call e = true) (snd (m w)).

(** [f first x0; f (first + 1) x1; ...]. *)
Fixpoint imap {A B : Type} (f : nat -> A -> B) (first : nat) (l : list A)
  : list B :=
  match l with
  | [] => []
  | x :: rest => f first x :: imap f (S first) rest
  end.

(** Loading and reading [n] pages in order, from page index [first]. *)
Definition page_calls (first n : nat) : list event :=
  flat_map (fun i => [Ok (DocLoadPage i); Ok (PageGetText i)]) (seq first n).

(** The pages of index [first], [first + 1], ... of the document can be
    loaded and read, and have the given texts. *)
Definition pages_from (doc : Document) (first : nat) (texts : list str)
  : Prop :=
  forall i text,
    nth_error texts i = Some text ->
    exists page,
      load_page doc (first + i) = Returns page
      /\ get_text page = Returns text.

(** The record [pymupdf_extractor.py] keeps of a page. *)
Definition page_record (page_num : nat) (page_text : str) : json :=
  JDict [("pageNumber", JInt (page_num + 1));
         ("text", JStr page_text);
         ("charCount", JInt (List.length page_text))].

(** What [pymupdf_extractor.py] adds to [full_text] for a page. *)
Definition page_segment (page_num : nat) (page_text : str) : str :=
  (nl ++ lit "=== PAGE " ++ str_of_nat (page_num + 1) ++ lit " ===" ++ nl)
    ++ page_text ++ nl.

(** [md.get(key, "")]. *)
Definition metadata_field (md : list (String.string * str))
    (key : String.string) : str :=
  match assoc key md with
  | Some v => v
  | None => []
  end.

(** The fields every consumer of a JSON result can rely on: a boolean
    [success], a string [text], a dict [metadata], and a string [error]
    when [success] is false. *)
Definition has_core_fields (j : json) (_ : list event) : Prop :=
  exists b text fields,
    dict_get "success" j = Some (JBool b)
    /\ dict_get "text" j = Some (JStr text)
    /\ dict_get "metadata" j = Some (JDict fields)
    /\ (b = false -> exists msg, dict_get "error" j = Some (JStr msg)).


(** The [text] of the result holds ASCII only. *)
Definition ascii_text (j : json) (_ : list event) : Prop :=
  forall text,
    dict_get "text" j = Some (JStr text) -> Forall (fun c => c < 128) text.

(* ------------------------------------------------------------------ *)
(** * Properties *)

(** ** Strings *)

Lemma join_empty_concat (parts : list str) : join [] parts = List.concat parts.
Proof.
  induction parts as [|p rest IH]; [reflexivity|].
  destruct rest as [|q rest'].
  - simpl. now rewrite app_nil_r.
  - change (join [] (p :: q :: rest')) with (p ++ [] ++ join [] (q :: rest')).
    rewrite IH. reflexivity.
Qed.

Lemma replace_app (old : codepoint) (new a b : str) :
  replace old new (a ++ b) = replace old new a ++ replace old new b.
Proof.
  induction a as [|c a IH]; simpl; [reflexivity|].
  now rewrite IH, app_assoc.
Qed.

Lemma encode_ascii_ignore_ascii (s : str) :
  Forall (fun c => c < 128) (encode_ascii_ignore s).
Proof.
  unfold encode_ascii_ignore. apply Forall_forall. intros c Hc.
  apply filter_In in Hc. destruct Hc as [_ Hc]. now apply N.ltb_lt.
Qed.

(** ** The normalizer *)

Lemma apply_replacements_app (a b : str) :
  apply_replacements (a ++ b) = apply_replacements a ++ apply_replacements b.
Proof.
  unfold apply_replacements, replacements, fold_left.
  now rewrite !replace_app.
Qed.

Lemma apply_replacements_single (c : codepoint) :
  apply_replacements [c] = substitute c.
Proof.
  unfold apply_replacements, substitute, replacements, fold_left, find, fst, snd.
  repeat match goal with
         | |- context [N.eqb c ?k] =>
             destruct (N.eqb_spec c k) as [->|?]; [reflexivity|]
         end.
  simpl.
  repeat match goal with
         | |- context [N.eqb c ?k] =>
             destruct (N.eqb_spec c k) as [->|?]; [contradiction|]; simpl
         end.
  reflexivity.
Qed.

Lemma apply_replacements_flat_map (text : str) :
  apply_replacements text = flat_map substitute text.
Proof.
  induction text as [|c text IH]; [reflexivity|].
  change (c :: text) with ([c] ++ text).
  rewrite apply_replacements_app, apply_replacements_single, IH.
  reflexivity.
Qed.

Lemma substitute_not_key (c : codepoint) :
  is_key c = false -> substitute c = [c].
Proof.
  unfold is_key, substitute. intros H.
  destruct (find (fun kv => c =? fst kv) replacements) as [kv|] eqn:E;
    [|reflexivity].
  apply find_some in E. destruct E as [Hin Heq].
  assert (existsb (fun kv => c =? fst kv) replacements = true) as X
      by (apply existsb_exists; eauto).
  congruence.
Qed.

Lemma substitute_settled_or_same (c : codepoint) :
  Forall settled (substitute c) \/ (substitute c = [c] /\ c <> 160).
Proof.
  unfold substitute, replacements, find, fst, snd.
  repeat match goal with
         | |- context [N.eqb c ?k] =>
             destruct (N.eqb_spec c k) as [->|?];
             [left; repeat constructor; unfold settled; lia|]
         end.
  right. split; [reflexivity|assumption].
Qed.

Lemma settled_passes (c : codepoint) : settled c -> passes c.
Proof. unfold settled, passes. lia. Qed.

Lemma settled_not_key (c : codepoint) : settled c -> is_key c = false.
Proof.
  unfold settled, is_key, replacements, existsb, fst. intros H.
  repeat match goal with
         | |- context [N.eqb c ?k] =>
             destruct (N.eqb_spec c k) as [->|?]; [exfalso; lia|]
         end.
  reflexivity.
Qed.

Section NormalizerFacts.

Variable category : codepoint -> general_category.
Variable normalize_NFKD : codepoint -> outcome str.

Abbreviation clean_char := (clean_char category normalize_NFKD).
Abbreviation clean_unicode_text :=
  (clean_unicode_text category normalize_NFKD).

Lemma clean_loop_map (text : str) :
  clean_loop category normalize_NFKD text = map clean_char text.
Proof.
  unfold clean_loop.
  enough (forall acc,
             fold_left (fun cleaned_chars char => cleaned_chars ++ [clean_char char])
                       text acc = acc ++ map clean_char text) as H by apply H.
  induction text as [|c text IH]; intros acc; simpl.
  - now rewrite app_nil_r.
  - rewrite IH, <- app_assoc. reflexivity.
Qed.

(** The normalizer works character by character. *)
Lemma clean_unicode_text_flat_map (text : str) :
  clean_unicode_text text
  = flat_map (fun c => flat_map clean_char (substitute c)) text.
Proof.
  unfold ExtractPdfText.clean_unicode_text.
  rewrite join_empty_concat, clean_loop_map, <- flat_map_concat_map.
  rewrite apply_replacements_flat_map.
  induction text as [|c text IH]; simpl; [reflexivity|].
  now rewrite flat_map_app, IH.
Qed.

Lemma clean_unicode_text_app (a b : str) :
  clean_unicode_text (a ++ b) = clean_unicode_text a ++ clean_unicode_text b.
Proof. rewrite !clean_unicode_text_flat_map. apply flat_map_app. Qed.

Lemma clean_char_passes (c : codepoint) : passes c -> clean_char c = [c].
Proof.
  unfold passes, ExtractPdfText.clean_char. intros H.
  destruct (N.ltb_spec c 128); [reflexivity|].
  destruct (N.leb_spec 160 c); [|exfalso; lia].
  destruct (N.ltb_spec c 256); [reflexivity|exfalso; lia].
Qed.

Lemma clean_settled (text : str) :
  Forall settled text -> clean_unicode_text text = text.
Proof.
  rewrite clean_unicode_text_flat_map.
  induction 1 as [|c text Hc _ IH]; [reflexivity|].
  simpl. rewrite IH, substitute_not_key by now apply settled_not_key.
  simpl. rewrite clean_char_passes by now apply settled_passes.
  reflexivity.
Qed.

(** What the [try:] block appends lies in [P], when [P] holds of ASCII and
    of every single code point below 256 that a decomposition consists
    of. *)
Lemma clean_char_cases (P : codepoint -> Prop) (c : codepoint) :
  (forall a, a < 128 -> P a) ->
  (160 <= c -> c < 256 -> P c) ->
  (forall d, in_LNPSZ (category c) = true ->
             normalize_NFKD c = Returns [d] -> d < 256 -> P d) ->
  Forall P (clean_char c).
Proof.
  intros Hascii Hlatin Hnfkd. unfold ExtractPdfText.clean_char.
  assert (Forall P (lit " ")) as Hsp
      by (repeat constructor; apply Hascii; simpl; lia).
  destruct (N.ltb_spec c 128); [repeat constructor; now apply Hascii|].
  destruct (N.leb_spec 160 c); simpl.
  - destruct (N.ltb_spec c 256); [repeat constructor; now apply Hlatin|].
    destruct (in_LNPSZ (category c)) eqn:Ecat; [|exact Hsp].
    unfold try_normalize.
    destruct (normalize_NFKD c) as [normalized|e] eqn:En; [|exact Hsp].
    destruct (single_below_256 normalized) eqn:Es.
    + destruct normalized as [|d [|? ?]]; try discriminate.
      repeat constructor. apply Hnfkd; auto. now apply N.ltb_lt.
    + destruct (truthy (encode_ascii_ignore normalized)); [|exact Hsp].
      eapply Forall_impl; [|apply encode_ascii_ignore_ascii]. exact Hascii.
  - destruct (in_LNPSZ (category c)) eqn:Ecat; [|exact Hsp].
    unfold try_normalize.
    destruct (normalize_NFKD c) as [normalized|e] eqn:En; [|exact Hsp].
    destruct (single_below_256 normalized) eqn:Es.
    + destruct normalized as [|d [|? ?]]; try discriminate.
      repeat constructor. apply Hnfkd; auto. now apply N.ltb_lt.
    + destruct (truthy (encode_ascii_ignore normalized)); [|exact Hsp].
      eapply Forall_impl; [|apply encode_ascii_ignore_ascii]. exact Hascii.
Qed.

Lemma clean_char_settled (c : codepoint) : settled c -> clean_char c = [c].
Proof. intros H. now apply clean_char_passes, settled_passes. Qed.

Lemma flat_map_clean_settled (s : str) :
  Forall settled s -> flat_map clean_char s = s.
Proof.
  induction 1 as [|c s Hc _ IH]; [reflexivity|].
  simpl. now rewrite IH, clean_char_settled.
Qed.

End NormalizerFacts.

(** The sample fragment of the Unicode database never decomposes a
    character to a single C1 control or to the no-break space. *)
Lemma sample_nfkd_closed (c d : codepoint) :
  in_LNPSZ (Samples.category c) = true ->
  Samples.normalize_NFKD c = Returns [d] ->
  d < 128 \/ 160 < d.
Proof.
  unfold Samples.category, Samples.normalize_NFKD.
  repeat match goal with
         | |- context [N.eqb c ?k] =>
             destruct (N.eqb_spec c k) as [->|?];
             [simpl; intros _ H; try discriminate H;
              injection H as <-; lia|]
         end.
  destruct ((c <? 32) || ((127 <=? c) && (c <? 160))); discriminate.
Qed.

Lemma clean_char_not_empty
    (category : codepoint -> general_category)
    (normalize_NFKD : codepoint -> outcome str) (c : codepoint) :
  clean_char category normalize_NFKD c <> [].
Proof.
  unfold clean_char, try_normalize.
  destruct (c <? 128); [discriminate|].
  destruct ((160 <=? c) && (c <? 256)); [discriminate|].
  destruct (in_LNPSZ (category c)); [|discriminate].
  destruct (normalize_NFKD c) as [normalized|e]; [|discriminate].
  destruct (single_below_256 normalized) eqn:Es.
  - destruct normalized; discriminate.
  - destruct (encode_ascii_ignore normalized); discriminate.
Qed.

Lemma substitute_of_key (c : codepoint) (v : str) :
  In (c, v) replacements ->
  substitute c = v /\ Forall settled v /\ v <> [].
Proof.
  unfold replacements. simpl. intros H.
  repeat (destruct H as [H|H];
          [injection H as <- <-;
           split; [reflexivity|];
           split; [repeat constructor; unfold settled; simpl; lia
                  |discriminate]|]).
  contradiction.
Qed.

Lemma clean_single_key
    (category : codepoint -> general_category)
    (normalize_NFKD : codepoint -> outcome str) (c : codepoint) (v : str) :
  In (c, v) replacements ->
  clean_unicode_text category normalize_NFKD [c] = v.
Proof.
  intros Hin. destruct (substitute_of_key c v Hin) as (Hs & Hv & _).
  rewrite clean_unicode_text_flat_map. simpl.
  rewrite List.app_nil_r, Hs. now apply flat_map_clean_settled.
Qed.

Lemma clean_single_not_key
    (category : codepoint -> general_category)
    (normalize_NFKD : codepoint -> outcome str) (c : codepoint) :
  is_key c = false ->
  clean_unicode_text category normalize_NFKD [c]
  = clean_char category normalize_NFKD c.
Proof.
  intros Hk. rewrite clean_unicode_text_flat_map. simpl.
  rewrite substitute_not_key by exact Hk. simpl.
  now rewrite !List.app_nil_r.
Qed.

Lemma key_in_table (c : codepoint) :
  is_key c = true -> exists v, In (c, v) replacements.
Proof.
  unfold is_key. intros H. apply existsb_exists in H.
  destruct H as ([k v] & Hin & Heq). simpl in Heq.
  apply N.eqb_eq in Heq. subst k. now exists v.
Qed.

(** What the classification loop appends for a character outside the
    ranges it passes through. *)
Lemma clean_char_outside
    (category : codepoint -> general_category)
    (normalize_NFKD : codepoint -> outcome str) (c : codepoint) :
  ~ passes c ->
  clean_char category normalize_NFKD c
  = if in_LNPSZ (category c) then
      match normalize_NFKD c with
      | Raises _ => lit " "
      | Returns decomposed =>
          if single_below_256 decomposed then decomposed
          else if truthy (encode_ascii_ignore decomposed)
               then encode_ascii_ignore decomposed
               else lit " "
      end
    else lit " ".
Proof.
  unfold passes, clean_char, try_normalize. intros Hp.
  destruct (N.ltb_spec c 128); [exfalso; lia|].
  destruct (N.leb_spec 160 c); simpl;
    [destruct (N.ltb_spec c 256); [exfalso; lia|]|];
    (destruct (in_LNPSZ (category c)); [|reflexivity];
     destruct (normalize_NFKD c) as [decomposed|e]; [|reflexivity];
     now destruct (single_below_256 decomposed)).
Qed.

(** C1. Whatever the input, [clean_unicode_text] returns (the only call
    that can raise sits in the [try:] of [try_normalize], whose failure
    becomes a space), and every code point of the result lies in
    [0,127] or [160,255].  The result is the concatenation of what each
    input character alone is mapped to, and that is never empty: a key
    of the replacement table gives its table entry; any other character
    in [0,127] or [160,255] gives itself; any other character outside
    those ranges gives a single space when its category is not L, N, P,
    S or Z or when [normalize] raises, and otherwise its decomposition
    if that is a single code point below 256, else the ASCII part of its
    decomposition, else (no ASCII part) a single space.  The Unicode
    database is a parameter; it is assumed that no character of a
    category L, N, P, S or Z has a one-character decomposition in
    [128,159] (the C1 controls). *)
Theorem clean_unicode_text_output_range :
  forall (category : codepoint -> general_category)
         (normalize_NFKD : codepoint -> outcome str),
    (forall c d, in_LNPSZ (category c) = true ->
                 normalize_NFKD c = Returns [d] ->
                 d < 128 \/ 160 <= d) ->
    forall text : str,
      Forall passes (clean_unicode_text category normalize_NFKD text)
      /\ clean_unicode_text category normalize_NFKD text
         = flat_map (fun c => clean_unicode_text category normalize_NFKD [c])
                    text
      /\ forall c : codepoint,
           clean_unicode_text category normalize_NFKD [c] <> []
           /\ (forall v, In (c, v) replacements ->
                         clean_unicode_text category normalize_NFKD [c] = v)
           /\ (is_key c = false -> passes c ->
               clean_unicode_text category normalize_NFKD [c] = [c])
           /\ (is_key c = false -> ~ passes c ->
               (in_LNPSZ (category c) = false ->
                clean_unicode_text category normalize_NFKD [c] = lit " ")
               /\ (forall msg,
                      normalize_NFKD c = Raises msg ->
                      clean_unicode_text category normalize_NFKD [c]
                      = lit " ")
               /\ (forall decomposed,
                      in_LNPSZ (category c) = true ->
                      normalize_NFKD c = Returns decomposed ->
                      clean_unicode_text category normalize_NFKD [c]
                      = if single_below_256 decomposed then decomposed
                        else if truthy (encode_ascii_ignore decomposed)
                             then encode_ascii_ignore decomposed
                             else lit " ")).
Proof.
  intros category normalize_NFKD Hnfkd text. split; [|split].
  - rewrite clean_unicode_text_flat_map.
    apply Forall_flat_map, Forall_forall. intros c _.
    destruct (substitute_settled_or_same c) as [Hs|[-> _]].
    + rewrite flat_map_clean_settled by exact Hs.
      eapply Forall_impl; [|exact Hs]. apply settled_passes.
    + simpl. rewrite List.app_nil_r.
      apply clean_char_cases; unfold passes; try lia.
      intros d Hc Hd Hlt. destruct (Hnfkd c d Hc Hd); lia.
  - rewrite clean_unicode_text_flat_map.
    apply flat_map_ext. intros c.
    rewrite clean_unicode_text_flat_map. simpl. now rewrite List.app_nil_r.
  - intros c. split; [|split; [|split]].
    + destruct (is_key c) eqn:Hk.
      * destruct (key_in_table c Hk) as [v Hin].
        rewrite (clean_single_key category normalize_NFKD c v Hin).
        now destruct (substitute_of_key c v Hin) as (_ & _ & Hne).
      * rewrite clean_single_not_key by exact Hk.
        apply clean_char_not_empty.
    + intros v Hin. now apply clean_single_key.
    + intros Hk Hp. rewrite clean_single_not_key by exact Hk.
      now apply clean_char_passes.
    + intros Hk Hp. rewrite clean_single_not_key by exact Hk.
      rewrite clean_char_outside by exact Hp.
      split; [|split].
      * now intros ->.
      * intros msg ->. now destruct (in_LNPSZ (category c)).
      * now intros decomposed -> ->.
Qed.

Lemma clean_unicode_text_output_range_witness :
  Forall passes
    (clean_unicode_text Samples.category Samples.normalize_NFKD
       Samples.mixed_text)
  /\ clean_unicode_text Samples.category Samples.normalize_NFKD
       Samples.mixed_text
     = flat_map
         (fun c => clean_unicode_text Samples.category Samples.normalize_NFKD [c])
         Samples.mixed_text
  /\ forall c : codepoint,
       clean_unicode_text Samples.category Samples.normalize_NFKD [c] <> []
       /\ (forall v, In (c, v) replacements ->
                     clean_unicode_text Samples.category
                       Samples.normalize_NFKD [c] = v)
       /\ (is_key c = false -> passes c ->
           clean_unicode_text Samples.category Samples.normalize_NFKD [c]
           = [c])
       /\ (is_key c = false -> ~ passes c ->
           (in_LNPSZ (Samples.category c) = false ->
            clean_unicode_text Samples.category Samples.normalize_NFKD [c]
            = lit " ")
           /\ (forall msg,
                  Samples.normalize_NFKD c = Raises msg ->
                  clean_unicode_text Samples.category
                    Samples.normalize_NFKD [c] = lit " ")
           /\ (forall decomposed,
                  in_LNPSZ (Samples.category c) = true ->
                  Samples.normalize_NFKD c = Returns decomposed ->
                  clean_unicode_text Samples.category
                    Samples.normalize_NFKD [c]
                  = if single_below_256 decomposed then decomposed
                    else if truthy (encode_ascii_ignore decomposed)
                         then encode_ascii_ignore decomposed
                         else lit " ")).
Proof.
  apply (clean_unicode_text_output_range Samples.category Samples.normalize_NFKD).
  intros c d Hc Hd. destruct (sample_nfkd_closed c d Hc Hd); lia.
Defined.

(** C4. [clean_unicode_text] is idempotent.  The Unicode database is a
    parameter; it is assumed that no character of a category L, N, P, S
    or Z has a one-character decomposition in [128,160] (a C1 control or
    the no-break space, which is itself decomposable). *)
Theorem clean_unicode_text_idempotent :
  forall (category : codepoint -> general_category)
         (normalize_NFKD : codepoint -> outcome str),
    (forall c d, in_LNPSZ (category c) = true ->
                 normalize_NFKD c = Returns [d] ->
                 d < 128 \/ 160 < d) ->
    forall text : str,
      clean_unicode_text category normalize_NFKD
        (clean_unicode_text category normalize_NFKD text)
      = clean_unicode_text category normalize_NFKD text.
Proof.
  intros category normalize_NFKD Hnfkd text.
  apply clean_settled.
  rewrite clean_unicode_text_flat_map.
  apply Forall_flat_map, Forall_forall. intros c _.
  destruct (substitute_settled_or_same c) as [Hs|[-> Hc]].
  - now rewrite flat_map_clean_settled.
  - simpl. rewrite List.app_nil_r.
    apply clean_char_cases; unfold settled; try lia.
    intros d Hcat Hd Hlt. destruct (Hnfkd c d Hcat Hd); lia.
Qed.

Lemma clean_unicode_text_idempotent_witness :
  clean_unicode_text Samples.category Samples.normalize_NFKD
    (clean_unicode_text Samples.category Samples.normalize_NFKD
       Samples.mixed_text)
  = clean_unicode_text Samples.category Samples.normalize_NFKD
      Samples.mixed_text.
Proof.
  apply (clean_unicode_text_idempotent Samples.category Samples.normalize_NFKD).
  exact sample_nfkd_closed.
Defined.

(** C5. A character with code point in [0,127] or [160,255] that is not a
    key of the replacement table comes out unchanged, alone and between
    any two strings. *)
Theorem clean_unicode_text_identity_on_passing :
  forall (category : codepoint -> general_category)
         (normalize_NFKD : codepoint -> outcome str)
         (pre post : str) (c : codepoint),
    passes c ->
    is_key c = false ->
    clean_unicode_text category normalize_NFKD [c] = [c]
    /\ clean_unicode_text category normalize_NFKD (pre ++ c :: post)
       = clean_unicode_text category normalize_NFKD pre
           ++ c :: clean_unicode_text category normalize_NFKD post.
Proof.
  intros category normalize_NFKD pre post c Hc Hk.
  assert (clean_unicode_text category normalize_NFKD [c] = [c]) as H1.
  { rewrite clean_unicode_text_flat_map. simpl.
    rewrite substitute_not_key by exact Hk. simpl.
    now rewrite clean_char_passes. }
  split; [exact H1|].
  change (c :: post) with ([c] ++ post).
  now rewrite !clean_unicode_text_app, H1.
Qed.

Lemma clean_unicode_text_identity_on_passing_witness :
  clean_unicode_text Samples.category Samples.normalize_NFKD [0xE9] = [0xE9]
  /\ clean_unicode_text Samples.category Samples.normalize_NFKD
       ([0x201C; 0x4E2D] ++ 0xE9 :: [0xFB01])
     = clean_unicode_text Samples.category Samples.normalize_NFKD
         [0x201C; 0x4E2D]
       ++ 0xE9 :: clean_unicode_text Samples.category Samples.normalize_NFKD
                    [0xFB01].
Proof.
  apply (clean_unicode_text_identity_on_passing
           Samples.category Samples.normalize_NFKD [0x201C; 0x4E2D] [0xFB01]).
  - unfold passes. lia.
  - reflexivity.
Defined.

(* ------------------------------------------------------------------ *)
(** ** Runs of the extraction drivers *)

(** Case split on the test of a conditional or on a destructuring [let]
    at the head of the computation in the goal. *)
Ltac branch :=
  match goal with
  | |- _ (if ?b then _ else _) => destruct b
  | |- _ (let (_, _) := ?p in _) => destruct p
  end.

Lemma run_bind {A B : Type} (m : M A) (k : A -> M B) (w : World)
    (a : A) (ev : list event) :
  m w = (Returns a, ev) ->
  bind m k w = (fst (k a w), ev ++ snd (k a w)).
Proof. unfold bind. intros ->. now destruct (k a w). Qed.

Lemma quiet_app (a b : list event) : quiet a -> quiet b -> quiet (a ++ b).
Proof. unfold quiet. intros. apply Forall_app. now split. Qed.

Lemma not_quiet_after_failure (pre post : list event) (c : call) (e : str) :
  ~ quiet ((pre ++ [Failed c e]) ++ post).
Proof.
  unfold quiet. rewrite Forall_forall. intros Hq.
  specialize (Hq (Failed c e)). simpl in Hq.
  assert (true = false) as X; [|discriminate X].
  apply Hq. rewrite !in_app_iff. left. right. now left.
Qed.

Lemma faithful_ret {A : Type} (a : A) : faithful (ret a).
Proof. intros w. constructor. Qed.

Lemma faithful_invoke {A : Type} (c : call) (r : outcome A) :
  faithful (invoke c r).
Proof.
  intros w. unfold invoke. destruct r as [a|msg].
  - repeat constructor.
  - exists [], c. split; [reflexivity|constructor].
Qed.

Lemma faithful_bind {A B : Type} (m : M A) (k : A -> M B) :
  faithful m -> (forall a, faithful (k a)) -> faithful (bind m k).
Proof.
  intros Hm Hk w. unfold bind. specialize (Hm w).
  destruct (m w) as [[a|msg] ev]; [|exact Hm].
  specialize (Hk a w). destruct (k a w) as [[b|msg] ev'].
  - now apply quiet_app.
  - destruct Hk as (pre & c & -> & Hq).
    exists (ev ++ pre), c. split; [now rewrite app_assoc|now apply quiet_app].
Qed.

Lemma faithful_os_path_exists (p : str) : faithful (os_path_exists p).
Proof. intros w. repeat constructor. Qed.

Lemma faithful_pathlib_exists (p : str) : faithful (pathlib_exists p).
Proof. intros w. unfold pathlib_exists. apply faithful_invoke. Qed.

Lemma os_path_exists_test (p : str) : existence_test p (os_path_exists p).
Proof.
  intros w. unfold os_path_exists. split; intros ->; [reflexivity|now left].
Qed.

Lemma pathlib_exists_test (p : str) : existence_test p (pathlib_exists p).
Proof.
  intros w. unfold pathlib_exists, invoke. split; intros ->; [reflexivity|].
  destruct (exists_error w p) as [msg|]; [right; now exists msg|now left].
Qed.

Lemma faithful_fitz_open (p : str) : faithful (fitz_open_ p).
Proof. intros w. apply (faithful_invoke (FitzOpen p) (fitz_open w p) w). Qed.

Lemma faithful_path_stat (p : str) : faithful (path_stat_st_size p).
Proof. intros w. apply (faithful_invoke (PathStat p) (stat_size w p) w). Qed.

Lemma faithful_now : faithful datetime_now_isoformat.
Proof. intros w. constructor. Qed.

Lemma faithful_doc_metadata_get (doc : Document) (key : String.string) :
  faithful (doc_metadata_get doc key).
Proof.
  apply faithful_bind; [apply faithful_invoke|intros; apply faithful_ret].
Qed.

Lemma on_return_ret {A : Type} (Q : A -> list event -> Prop) (a : A) :
  Q a [] -> on_return Q (ret a).
Proof. intros H w a' ev E. injection E as <- <-. exact H. Qed.

Lemma on_return_bind {A B : Type} (Q : B -> list event -> Prop)
    (m : M A) (k : A -> M B) :
  (forall b pre ev, Q b ev -> Q b (pre ++ ev)) ->
  (forall a, on_return Q (k a)) ->
  on_return Q (bind m k).
Proof.
  intros Hpre Hk w b ev. unfold bind.
  destruct (m w) as [[a|msg] ev1]; [|discriminate].
  destruct (k a w) as [r ev2] eqn:E. intros H. injection H as -> <-.
  apply Hpre. now apply (Hk a w).
Qed.

(** Under a handler that only builds its result, a failed call in the
    trace of a faithful body means that the handler ran. *)
Lemma try_except_failed {A : Type} (body : M A) (handler : str -> A)
    (w : World) (c : call) (msg : str) :
  faithful body ->
  In (Failed c msg) (trace_of (try_except body (fun e => ret (handler e))) w) ->
  exists e, run (try_except body (fun e => ret (handler e))) w
            = (Returns (handler e), trace_of body w).
Proof.
  unfold trace_of, run, try_except, ret. intros Hb. specialize (Hb w).
  destruct (body w) as [[a|e] ev]; simpl.
  - intros Hin. exfalso.
    apply (proj1 (Forall_forall _ _) Hb) in Hin. discriminate.
  - intros _. exists e. now rewrite List.app_nil_r.
Qed.

(** Under any handler, a run of a faithful body without a failed call is
    a run in which the body returned. *)
Lemma try_except_quiet {A : Type} (Q : A -> list event -> Prop)
    (body : M A) (handler : str -> M A) (w : World) :
  faithful body ->
  on_return Q body ->
  quiet (trace_of (try_except body handler) w) ->
  exists a, Q a (trace_of (try_except body handler) w).
Proof.
  unfold trace_of, run, try_except. intros Hf Hc.
  specialize (Hf w). specialize (Hc w).
  destruct (body w) as [[a|e] ev]; simpl.
  - intros _. exists a. now apply Hc.
  - destruct Hf as (pre & c & -> & _).
    destruct (handler e w) as [r ev']. simpl. intros Hq.
    now apply not_quiet_after_failure in Hq.
Qed.

(** What the body returned, when the handler only builds its result. *)
Lemma try_except_on_return {A : Type} (Q : A -> list event -> Prop)
    (body : M A) (handler : str -> A) (w : World) (a : A) :
  on_return Q body ->
  (forall e ev, Q (handler e) ev) ->
  result_of (try_except body (fun e => ret (handler e))) w = Returns a ->
  Q a (trace_of (try_except body (fun e => ret (handler e))) w).
Proof.
  unfold result_of, trace_of, run, try_except, ret. intros Hb Hh.
  specialize (Hb w). destruct (body w) as [[b|e] ev]; simpl.
  - intros H. injection H as <-. now apply Hb.
  - intros H. injection H as <-. apply Hh.
Qed.

Lemma try_except_returns {A : Type} (body : M A) (handler : str -> A)
    (w : World) :
  exists a, result_of (try_except body (fun e => ret (handler e))) w = Returns a.
Proof.
  unfold result_of, run, try_except, ret.
  destruct (body w) as [[a|e] ev]; simpl; eauto.
Qed.

(** *** The [try:] bodies are faithful *)

Lemma pymupdf_page_loop_faithful (doc : Document) (page_nums : list nat) :
  forall acc, faithful (PymupdfExtractor.page_loop doc page_nums acc).
Proof.
  induction page_nums as [|page_num rest IH]; intros [full_text page_texts];
    simpl;
    repeat first [ apply faithful_bind; [|intros] | apply faithful_ret
                 | apply faithful_invoke | apply IH ].
Qed.

Lemma pdf_extractor_page_loop_faithful (doc : Document) (page_nums : list nat) :
  forall acc, faithful (PdfExtractor.page_loop doc page_nums acc).
Proof.
  induction page_nums as [|page_num rest IH]; intros [full_text page_texts];
    simpl;
    repeat first [ apply faithful_bind; [|intros] | apply faithful_ret
                 | apply faithful_invoke | apply IH ].
Qed.

Lemma plain_page_loop_faithful
    (category : codepoint -> general_category)
    (normalize_NFKD : codepoint -> outcome str)
    (doc : Document) (page_nums : list nat) :
  forall text_parts,
    faithful (ExtractPdfText.page_loop category normalize_NFKD doc page_nums
                                       text_parts).
Proof.
  induction page_nums as [|page_num rest IH]; intros text_parts; simpl;
    repeat first [ apply faithful_bind; [|intros] | apply faithful_ret
                 | apply faithful_invoke | apply IH | branch ].
Qed.

Lemma pymupdf_try_faithful (pdf_path : str) :
  faithful (PymupdfExtractor.extract_text_from_pdf_try pdf_path).
Proof.
  unfold PymupdfExtractor.extract_text_from_pdf_try.
  repeat first [ apply faithful_bind; [|intros] | apply faithful_ret
               | apply faithful_os_path_exists | apply faithful_fitz_open
               | apply faithful_doc_metadata_get | apply faithful_now
               | apply faithful_invoke | apply pymupdf_page_loop_faithful
               | branch ].
Qed.

Lemma pdf_extractor_try_faithful (pdf_path : str) :
  faithful (PdfExtractor.extract_pdf_text_try pdf_path).
Proof.
  unfold PdfExtractor.extract_pdf_text_try.
  repeat first [ apply faithful_bind; [|intros] | apply faithful_ret
               | apply faithful_pathlib_exists | apply faithful_fitz_open
               | apply faithful_path_stat | apply faithful_invoke
               | apply pdf_extractor_page_loop_faithful | branch ].
Qed.

Lemma plain_try_faithful
    (category : codepoint -> general_category)
    (normalize_NFKD : codepoint -> outcome str) (pdf_path : str) :
  faithful (ExtractPdfText.extract_pdf_text_try category normalize_NFKD
                                                pdf_path).
Proof.
  unfold ExtractPdfText.extract_pdf_text_try.
  repeat first [ apply faithful_bind; [|intros] | apply faithful_ret
               | apply faithful_fitz_open | apply faithful_invoke
               | apply plain_page_loop_faithful ].
Qed.

(** *** Failure results *)

(** C8. When an outside call (any operation of the PDF library, the
    [stat] of [pdf_extractor.py] as well) raises during a run of a JSON
    extractor, the run returns the failure dict of the [except] clause:
    [success] is false, [text] is empty, [metadata] is the empty dict,
    and neither page texts nor a character count are reported. *)
Theorem collaborator_failure_gives_failure_result :
  forall (extractor : str -> M json) (w : World) (pdf_path : str)
         (c : call) (msg : str),
    In extractor json_extractors ->
    In (Failed c msg) (trace_of (extractor pdf_path) w) ->
    exists j,
      result_of (extractor pdf_path) w = Returns j
      /\ dict_get "success" j = Some (JBool false)
      /\ dict_get "text" j = Some (JStr [])
      /\ dict_get "metadata" j = Some (JDict [])
      /\ (dict_get "pages" j = None \/ dict_get "pages" j = Some (JList []))
      /\ dict_get "totalCharacters" j = None.
Proof.
  intros extractor w pdf_path c msg [<-|[<-|[]]] Hin.
  - unfold PymupdfExtractor.extract_text_from_pdf in *.
    apply try_except_failed in Hin; [|apply pymupdf_try_faithful].
    destruct Hin as [e He]. unfold result_of. rewrite He.
    eexists. split; [reflexivity|]. repeat split. now right.
  - unfold PdfExtractor.extract_pdf_text in *.
    apply try_except_failed in Hin; [|apply pdf_extractor_try_faithful].
    destruct Hin as [e He]. unfold result_of. rewrite He.
    eexists. split; [reflexivity|]. repeat split. now left.
Qed.

Lemma collaborator_failure_gives_failure_result_witness :
  exists j,
    result_of (PymupdfExtractor.extract_text_from_pdf (lit "broken.pdf"))
              Samples.sample_world = Returns j
    /\ dict_get "success" j = Some (JBool false)
    /\ dict_get "text" j = Some (JStr [])
    /\ dict_get "metadata" j = Some (JDict [])
    /\ (dict_get "pages" j = None \/ dict_get "pages" j = Some (JList []))
    /\ dict_get "totalCharacters" j = None.
Proof.
  apply (collaborator_failure_gives_failure_result
           PymupdfExtractor.extract_text_from_pdf Samples.sample_world
           (lit "broken.pdf") (DocLoadPage 0) (lit "cannot load page")).
  - simpl. auto.
  - vm_compute. auto 20.
Defined.

(** *** Character counts *)

Lemma pymupdf_try_counts_its_text (pdf_path : str) :
  on_return counts_its_text
            (PymupdfExtractor.extract_text_from_pdf_try pdf_path).
Proof.
  unfold PymupdfExtractor.extract_text_from_pdf_try.
  repeat first [ apply on_return_ret
               | apply on_return_bind; [solve [auto]|intros]
               | branch ];
    intros H; try discriminate H.
  eexists. split; reflexivity.
Qed.

Lemma pdf_extractor_try_counts_its_text (pdf_path : str) :
  on_return counts_its_text (PdfExtractor.extract_pdf_text_try pdf_path).
Proof.
  unfold PdfExtractor.extract_pdf_text_try.
  repeat first [ apply on_return_ret
               | apply on_return_bind; [solve [auto]|intros]
               | branch ];
    intros H; try discriminate H.
  eexists. split; reflexivity.
Qed.

(** C9. In every success result of the two JSON extractors,
    [totalCharacters] is the length of [text]. *)
Theorem total_characters_is_text_length :
  forall (extractor : str -> M json) (w : World) (pdf_path : str) (j : json),
    In extractor json_extractors ->
    result_of (extractor pdf_path) w = Returns j ->
    dict_get "success" j = Some (JBool true) ->
    exists text,
      dict_get "text" j = Some (JStr text)
      /\ dict_get "totalCharacters" j = Some (JInt (List.length text)).
Proof.
  intros extractor w pdf_path j [<-|[<-|[]]] Hres.
  - unfold PymupdfExtractor.extract_text_from_pdf in Hres.
    apply (try_except_on_return counts_its_text) in Hres; [exact Hres| |].
    + apply pymupdf_try_counts_its_text.
    + intros e ev H. discriminate H.
  - unfold PdfExtractor.extract_pdf_text in Hres.
    apply (try_except_on_return counts_its_text) in Hres; [exact Hres| |].
    + apply pdf_extractor_try_counts_its_text.
    + intros e ev H. discriminate H.
Qed.

Lemma total_characters_is_text_length_witness :
  exists text,
    dict_get "text"
      (JDict [("success", JBool true);
              ("text", JStr (lit "Hello"));
              ("totalCharacters", JInt 5);
              ("metadata",
               JDict [("pageCount", JInt 1);
                      ("fileSize", JInt 1024);
                      ("extractionMethod", JStr (lit "PyMuPDF-Python"));
                      ("extractionTime", JStr []);
                      ("pages", JList [JStr (lit "Hello")])])])
    = Some (JStr text)
    /\ dict_get "totalCharacters"
         (JDict [("success", JBool true);
                 ("text", JStr (lit "Hello"));
                 ("totalCharacters", JInt 5);
                 ("metadata",
                  JDict [("pageCount", JInt 1);
                         ("fileSize", JInt 1024);
                         ("extractionMethod", JStr (lit "PyMuPDF-Python"));
                         ("extractionTime", JStr []);
                         ("pages", JList [JStr (lit "Hello")])])])
       = Some (JInt (List.length text)).
Proof.
  apply (total_characters_is_text_length
           PdfExtractor.extract_pdf_text Samples.sample_world
           (lit "hello.pdf")).
  - simpl. auto.
  - reflexivity.
  - reflexivity.
Defined.

(** *** The document handle *)

Lemma ends_with_close_prefix (pre ev : list event) :
  ends_with_close ev -> ends_with_close (pre ++ ev).
Proof.
  intros [before ->]. exists (pre ++ before). now rewrite app_assoc.
Qed.

Lemma on_return_close {A : Type} (doc : Document) (x : A) :
  on_return (fun _ => ends_with_close) (doc_close doc ;;; ret x).
Proof.
  intros w a ev. unfold bind, doc_close, invoke, ret.
  destruct (close doc); [|discriminate].
  intros H. injection H as _ <-. now exists [].
Qed.

(** A body that starts with the existence test and closes what it opened:
    when it returns, either the test was its only outside call or the
    close was its last. *)
Lemma guarded_closes (pdf_path : str) (test : M bool) (missing : json)
    (rest : M json) :
  existence_test pdf_path test ->
  on_return (fun _ => ends_with_close) rest ->
  on_return (fun _ ev => ev = [Ok (PathExists pdf_path)] \/ ends_with_close ev)
            (found <- test ;;
             if negb found then ret missing else rest).
Proof.
  intros Htest Hrest w a ev. destruct (Htest w) as [Hyes Hno].
  destruct (path_exists w pdf_path).
  - rewrite (run_bind test _ w true _ (Hyes eq_refl)). simpl.
    destruct (rest w) as [r ev'] eqn:E. simpl. intros H.
    injection H as -> <-. right.
    apply (ends_with_close_prefix [_]). now apply (Hrest w a).
  - destruct (Hno eq_refl) as [E|[msg E]].
    + rewrite (run_bind test _ w false _ E). simpl.
      intros H. injection H as _ <-. now left.
    + unfold bind. rewrite E. discriminate.
Qed.

Lemma plain_try_closes
    (category : codepoint -> general_category)
    (normalize_NFKD : codepoint -> outcome str) (pdf_path : str) :
  on_return (fun _ => ends_with_close)
            (ExtractPdfText.extract_pdf_text_try category normalize_NFKD
                                                 pdf_path).
Proof.
  unfold ExtractPdfText.extract_pdf_text_try.
  repeat first [ apply on_return_close
               | apply on_return_bind;
                 [intros ? ? ?; apply ends_with_close_prefix|intros] ].
Qed.

Lemma pymupdf_try_closes (pdf_path : str) :
  on_return (fun _ ev => ev = [Ok (PathExists pdf_path)] \/ ends_with_close ev)
            (PymupdfExtractor.extract_text_from_pdf_try pdf_path).
Proof.
  unfold PymupdfExtractor.extract_text_from_pdf_try.
  apply guarded_closes; [apply os_path_exists_test|].
  repeat first [ apply on_return_close
               | apply on_return_bind;
                 [intros ? ? ?; apply ends_with_close_prefix|intros]
               | branch ].
Qed.

Lemma pdf_extractor_try_closes (pdf_path : str) :
  on_return (fun _ ev => ev = [Ok (PathExists pdf_path)] \/ ends_with_close ev)
            (PdfExtractor.extract_pdf_text_try pdf_path).
Proof.
  unfold PdfExtractor.extract_pdf_text_try.
  apply guarded_closes; [apply pathlib_exists_test|].
  repeat first [ apply on_return_close
               | apply on_return_bind;
                 [intros ? ? ?; apply ends_with_close_prefix|intros]
               | branch ].
Qed.

(** C2, as the code has it. In a run of an extraction entry point in which
    no outside call fails, a handle that was obtained from [fitz.open] is
    closed, and the close is the last outside call of the run.  (The
    extractors release the handle by a plain [doc.close()] at the end of
    the [try:] block, not by a [finally:] or a [with].) *)
Theorem handle_closed_when_nothing_fails :
  forall (w : World) (pdf_path : str) (tr : list event),
    extraction_trace w pdf_path tr ->
    quiet tr ->
    In (Ok (FitzOpen pdf_path)) tr ->
    exists before, tr = before ++ [Ok DocClose].
Proof.
  intros w pdf_path tr Hrun Hq Hopen. destruct Hrun.
  - unfold ExtractPdfText.extract_pdf_text in *.
    apply (try_except_quiet (fun _ => ends_with_close)) in Hq;
      [|apply plain_try_faithful|apply plain_try_closes].
    now destruct Hq as [_ Hq].
  - unfold PymupdfExtractor.extract_text_from_pdf in *.
    apply (try_except_quiet
             (fun _ ev => ev = [Ok (PathExists pdf_path)]
                          \/ ends_with_close ev)) in Hq;
      [|apply pymupdf_try_faithful|apply pymupdf_try_closes].
    destruct Hq as [_ [Hq|Hq]]; [|exact Hq].
    rewrite Hq in Hopen. destruct Hopen as [H|[]]. discriminate H.
  - unfold PdfExtractor.extract_pdf_text in *.
    apply (try_except_quiet
             (fun _ ev => ev = [Ok (PathExists pdf_path)]
                          \/ ends_with_close ev)) in Hq;
      [|apply pdf_extractor_try_faithful|apply pdf_extractor_try_closes].
    destruct Hq as [_ [Hq|Hq]]; [|exact Hq].
    rewrite Hq in Hopen. destruct Hopen as [H|[]]. discriminate H.
Qed.

Lemma handle_closed_when_nothing_fails_witness :
  exists before,
    trace_of (PymupdfExtractor.extract_text_from_pdf (lit "hello.pdf"))
             Samples.sample_world
    = before ++ [Ok DocClose].
Proof.
  apply (handle_closed_when_nothing_fails
           Samples.sample_world (lit "hello.pdf")).
  - apply pymupdf_trace.
  - vm_compute. repeat constructor.
  - vm_compute. auto.
Defined.

(** C2 as stated fails: the first page of [broken.pdf] cannot be loaded,
    the handle was obtained and no [doc.close()] follows, in the
    plain-text extractor and in [pymupdf_extractor.py] alike. *)
Lemma handle_left_open_after_failure :
  (In (Ok (FitzOpen (lit "broken.pdf")))
      (trace_of (PymupdfExtractor.extract_text_from_pdf (lit "broken.pdf"))
                Samples.sample_world)
   /\ ~ In (Ok DocClose)
        (trace_of (PymupdfExtractor.extract_text_from_pdf (lit "broken.pdf"))
                  Samples.sample_world))
  /\
  (In (Ok (FitzOpen (lit "broken.pdf")))
      (trace_of (ExtractPdfText.extract_pdf_text
                   Samples.category Samples.normalize_NFKD (lit "broken.pdf"))
                Samples.sample_world)
   /\ ~ In (Ok DocClose)
        (trace_of (ExtractPdfText.extract_pdf_text
                     Samples.category Samples.normalize_NFKD (lit "broken.pdf"))
                  Samples.sample_world)).
Proof.
  repeat split.
  - vm_compute. auto.
  - vm_compute. intros H.
    repeat (destruct H as [H|H]; [discriminate H|]). exact H.
  - vm_compute. auto.
  - vm_compute. intros H.
    repeat (destruct H as [H|H]; [discriminate H|]). exact H.
Qed.

(** *** Single runs *)

(** C3, as the code has it. For a file that exists and opens to a
    one-page document whose page text is "Hello", [extract_text_from_pdf]
    returns a success result with [pageCount] 1 and one page record
    (page number 1, text "Hello", 5 characters); [text] is the page text
    under its marker line, and [totalCharacters] is the length of that,
    20. *)
Theorem single_page_hello :
  forall (w : World) (pdf_path : str) (doc : Document) (page : Page)
         (md : list (String.string * str)),
    path_exists w pdf_path = true ->
    fitz_open w pdf_path = Returns doc ->
    metadata doc = Returns md ->
    page_count doc = Returns 1%nat ->
    load_page doc 0%nat = Returns page ->
    get_text page = Returns (lit "Hello") ->
    close doc = Returns tt ->
    exists j meta,
      result_of (PymupdfExtractor.extract_text_from_pdf pdf_path) w = Returns j
      /\ dict_get "success" j = Some (JBool true)
      /\ dict_get "metadata" j = Some meta
      /\ dict_get "pageCount" meta = Some (JInt 1)
      /\ dict_get "pages" j
         = Some (JList [JDict [("pageNumber", JInt 1);
                               ("text", JStr (lit "Hello"));
                               ("charCount", JInt 5)]])
      /\ dict_get "text" j
         = Some (JStr (lit "=== PAGE 1 ===" ++ nl ++ lit "Hello"))
      /\ dict_get "totalCharacters" j = Some (JInt 20).
Proof.
  intros w pdf_path doc page md Hex Hopen Hmd Hpc Hload Htext Hclose.
  unfold PymupdfExtractor.extract_text_from_pdf,
    PymupdfExtractor.extract_text_from_pdf_try.
  unfold result_of, trace_of, run, try_except, bind, ret, os_path_exists,
    fitz_open_, doc_metadata_get, doc_page_count, doc_load_page,
    page_get_text, doc_close, datetime_now_isoformat, invoke; cbv beta.
  rewrite Hex. cbn. rewrite Hopen. cbn. rewrite Hmd. cbn. rewrite Hpc. cbn.
  unfold bind, doc_load_page, page_get_text, doc_close, invoke, ret; cbv beta.
  rewrite Hload. cbn. rewrite Htext. cbn. rewrite Hclose. cbn.
  eexists. eexists. split; [reflexivity|]. repeat split.
Qed.

Lemma single_page_hello_witness :
  exists j meta,
    result_of (PymupdfExtractor.extract_text_from_pdf (lit "hello.pdf"))
              Samples.sample_world = Returns j
    /\ dict_get "success" j = Some (JBool true)
    /\ dict_get "metadata" j = Some meta
    /\ dict_get "pageCount" meta = Some (JInt 1)
    /\ dict_get "pages" j
       = Some (JList [JDict [("pageNumber", JInt 1);
                             ("text", JStr (lit "Hello"));
                             ("charCount", JInt 5)]])
    /\ dict_get "text" j
       = Some (JStr (lit "=== PAGE 1 ===" ++ nl ++ lit "Hello"))
    /\ dict_get "totalCharacters" j = Some (JInt 20).
Proof.
  apply (single_page_hello Samples.sample_world (lit "hello.pdf")
           Samples.hello_pdf {| get_text := Returns (lit "Hello") |} []);
    reflexivity.
Defined.

(** C3 as stated fails: on the one-page "Hello" document
    [totalCharacters] is 20, not 5. *)
Lemma single_page_hello_total_is_not_5 :
  exists j,
    result_of (PymupdfExtractor.extract_text_from_pdf (lit "hello.pdf"))
              Samples.sample_world = Returns j
    /\ dict_get "totalCharacters" j = Some (JInt 20)
    /\ dict_get "totalCharacters" j <> Some (JInt 5).
Proof.
  eexists. split; [reflexivity|]. split; [reflexivity|]. discriminate.
Qed.




Lemma pymupdf_extractor_returns (w : World) (pdf_path : str) :
  exists j,
    result_of (PymupdfExtractor.extract_text_from_pdf pdf_path) w = Returns j.
Proof.
  unfold PymupdfExtractor.extract_text_from_pdf.
  apply try_except_returns.
Qed.

(** C7, as the code has it. With an argument count other than one,
    [pdf_extractor.py] and [extract_pdf_text.py] print their usage
    failure and exit with status 1 without any outside call.
    [pymupdf_extractor.py] does so only when no argument is given
    ([len(sys.argv) < 2]); given more than one, it extracts the first and
    exits with status 0. *)
Theorem wrong_argument_count :
  forall (w : World) (category : codepoint -> general_category)
         (normalize_NFKD : codepoint -> outcome str) (argv : list str),
    List.length argv <> 2%nat ->
    run (PdfExtractor.main argv) w
    = (Returns 1%nat,
       [StdoutJson
          (JDict [("success", JBool false);
                  ("error",
                   JStr (lit "Usage: python pdf_extractor.py <pdf_path>"));
                  ("text", JStr []);
                  ("metadata", JDict [])])])
    /\ run (ExtractPdfText.main category normalize_NFKD argv) w
       = (Returns 1%nat,
          [Stderr (lit "Usage: python extract_pdf_text.py <pdf_file_path>")])
    /\ ((List.length argv < 2)%nat ->
        run (PymupdfExtractor.main argv) w
        = (Returns 1%nat,
           [StdoutJson
              (JDict [("success", JBool false);
                      ("error",
                       JStr (lit
                         "Usage: python pymupdf_extractor.py <pdf_path>"))])]))
    /\ ((2 < List.length argv)%nat ->
        exists j,
          result_of (PymupdfExtractor.extract_text_from_pdf (nth 1 argv [])) w
          = Returns j
          /\ run (PymupdfExtractor.main argv) w
             = (Returns 0%nat,
                trace_of (PymupdfExtractor.extract_text_from_pdf
                            (nth 1 argv [])) w
                  ++ [StdoutJson j])).
Proof.
  intros w category normalize_NFKD argv Hlen.
  apply Nat.eqb_neq in Hlen. repeat split.
  - unfold PdfExtractor.main. now rewrite Hlen.
  - unfold ExtractPdfText.main. now rewrite Hlen.
  - intros Hlt. apply Nat.ltb_lt in Hlt.
    unfold PymupdfExtractor.main. now rewrite Hlt.
  - intros Hgt.
    assert (Nat.ltb (List.length argv) 2 = false) as Hge
        by (apply Nat.ltb_ge; lia).
    unfold PymupdfExtractor.main. rewrite Hge.
    destruct (pymupdf_extractor_returns w (nth 1 argv [])) as [j Hj].
    exists j. split; [exact Hj|].
    unfold result_of, trace_of, run in *. unfold bind at 1.
    destruct (PymupdfExtractor.extract_text_from_pdf (nth 1 argv []) w)
      as [r ev].
    simpl in Hj. subst r. reflexivity.
Qed.

Lemma wrong_argument_count_witness :
  run (PdfExtractor.main [lit "pdf_extractor.py"]) Samples.sample_world
  = (Returns 1%nat,
     [StdoutJson
        (JDict [("success", JBool false);
                ("error",
                 JStr (lit "Usage: python pdf_extractor.py <pdf_path>"));
                ("text", JStr []);
                ("metadata", JDict [])])])
  /\ run (ExtractPdfText.main Samples.category Samples.normalize_NFKD
            [lit "pdf_extractor.py"]) Samples.sample_world
     = (Returns 1%nat,
        [Stderr (lit "Usage: python extract_pdf_text.py <pdf_file_path>")])
  /\ ((List.length [lit "pdf_extractor.py"] < 2)%nat ->
      run (PymupdfExtractor.main [lit "pdf_extractor.py"])
          Samples.sample_world
      = (Returns 1%nat,
         [StdoutJson
            (JDict [("success", JBool false);
                    ("error",
                     JStr (lit
                       "Usage: python pymupdf_extractor.py <pdf_path>"))])]))
  /\ ((2 < List.length [lit "pdf_extractor.py"])%nat ->
      exists j,
        result_of (PymupdfExtractor.extract_text_from_pdf
                     (nth 1 [lit "pdf_extractor.py"] []))
                  Samples.sample_world
        = Returns j
        /\ run (PymupdfExtractor.main [lit "pdf_extractor.py"])
               Samples.sample_world
           = (Returns 0%nat,
              trace_of (PymupdfExtractor.extract_text_from_pdf
                          (nth 1 [lit "pdf_extractor.py"] []))
                       Samples.sample_world
                ++ [StdoutJson j])).
Proof.
  apply (wrong_argument_count Samples.sample_world Samples.category
           Samples.normalize_NFKD [lit "pdf_extractor.py"]).
  simpl. lia.
Defined.

(** C7 as stated fails for [pymupdf_extractor.py]: with two arguments
    after the program name it opens the first and exits with status 0. *)
Lemma pymupdf_main_accepts_extra_arguments :
  List.length [lit "pymupdf_extractor.py"; lit "hello.pdf"; lit "extra"]
    <> 2%nat
  /\ result_of (PymupdfExtractor.main
                  [lit "pymupdf_extractor.py"; lit "hello.pdf"; lit "extra"])
               Samples.sample_world
     = Returns 0%nat
  /\ In (Ok (FitzOpen (lit "hello.pdf")))
        (trace_of (PymupdfExtractor.main
                     [lit "pymupdf_extractor.py"; lit "hello.pdf"; lit "extra"])
                  Samples.sample_world).
Proof.
  split; [simpl; lia|]. split; [reflexivity|]. vm_compute. auto.
Qed.

(** ** Page markers *)

Lemma lit_inj (s t : String.string) : lit s = lit t -> s = t.
Proof.
  revert t. induction s as [|a s IH]; intros [|b t] H; simpl in H;
    try discriminate; [reflexivity|].
  injection H as Hab Hst. f_equal; [|now apply IH].
  rewrite <- (ascii_N_embedding a), <- (ascii_N_embedding b). now f_equal.
Qed.

Lemma str_of_nat_inj (a b : nat) : str_of_nat a = str_of_nat b -> a = b.
Proof.
  unfold str_of_nat. intros H. apply lit_inj in H.
  assert (Some (Nat.to_uint a) = Some (Nat.to_uint b)) as E
      by (rewrite <- !DecimalString.NilEmpty.usu; now f_equal).
  injection E as E.
  rewrite <- (DecimalNat.Unsigned.of_to a), <- (DecimalNat.Unsigned.of_to b).
  now f_equal.
Qed.

Lemma str_of_nat_digits (n : nat) : Forall is_digit (str_of_nat n).
Proof.
  unfold str_of_nat. generalize (Nat.to_uint n). intros d.
  induction d; simpl; constructor; try assumption; unfold is_digit; lia.
Qed.

(** Two runs of digits, each followed by a character that is no digit,
    are equal when the strings are. *)
Lemma digits_prefix_unique (a b r1 r2 : str) (x y : codepoint) :
  Forall is_digit a -> Forall is_digit b ->
  ~ is_digit x -> ~ is_digit y ->
  a ++ x :: r1 = b ++ y :: r2 ->
  a = b.
Proof.
  intros Ha. revert b. induction Ha as [|c a Hc Ha IH]; intros b Hb Hx Hy E.
  - destruct Hb as [|d b Hd Hb]; [reflexivity|].
    simpl in E. injection E as -> _. contradiction.
  - destruct Hb as [|d b Hd Hb]; simpl in E.
    + injection E as -> _. contradiction.
    + injection E as -> E. f_equal. now apply (IH b).
Qed.

Lemma page_marker_inj (a b : nat) (x y : str) :
  page_marker a ++ x = page_marker b ++ y -> a = b.
Proof.
  unfold page_marker. rewrite <- !app_assoc. intros E.
  apply app_inv_head in E. apply str_of_nat_inj.
  change (lit " ---") with ([32] ++ lit "---") in E.
  rewrite <- !app_assoc in E. change ([32] ++ ?r) with (32 :: r) in E.
  apply digits_prefix_unique in E;
    [exact E|apply str_of_nat_digits|apply str_of_nat_digits| |];
    unfold is_digit; lia.
Qed.

Lemma page_parts_origin
    (category : codepoint -> general_category)
    (normalize_NFKD : codepoint -> outcome str)
    (texts : list str) :
  forall (first : nat) (part : str),
    In part (page_parts category normalize_NFKD first texts) ->
    exists i text,
      nth_error texts i = Some text
      /\ truthy (strip text) = true
      /\ part = page_marker (first + i + 1)
                ++ ExtractPdfText.clean_unicode_text category normalize_NFKD
                     text.
Proof.
  induction texts as [|text rest IH]; intros first part Hin; simpl in Hin;
    [contradiction|].
  destruct (truthy (strip text)) eqn:Et.
  - destruct Hin as [<-|Hin].
    + exists 0%nat, text. rewrite Nat.add_0_r. repeat split; assumption.
    + destruct (IH _ _ Hin) as (i & t & Hn & Ht & ->).
      exists (S i), t. split; [exact Hn|]. split; [exact Ht|].
      do 2 f_equal. lia.
  - destruct (IH _ _ Hin) as (i & t & Hn & Ht & ->).
    exists (S i), t. split; [exact Hn|]. split; [exact Ht|].
    do 2 f_equal. lia.
Qed.

Lemma plain_page_loop_cons
    (category : codepoint -> general_category)
    (normalize_NFKD : codepoint -> outcome str)
    (doc : Document) (page_num : nat) (rest : list nat)
    (text_parts : list str) :
  ExtractPdfText.page_loop category normalize_NFKD doc (page_num :: rest)
                           text_parts
  = (page <- doc_load_page doc page_num ;;
     text <- page_get_text page_num page ;;
     if truthy (strip text) then
       ExtractPdfText.page_loop category normalize_NFKD doc rest
         (text_parts ++
            [lit "--- Page " ++ str_of_nat (page_num + 1) ++ lit " ---"
               ++ nl ++ ExtractPdfText.clean_unicode_text
                          category normalize_NFKD text])
     else ExtractPdfText.page_loop category normalize_NFKD doc rest
            text_parts).
Proof. reflexivity. Qed.

Lemma plain_page_loop_run
    (category : codepoint -> general_category)
    (normalize_NFKD : codepoint -> outcome str)
    (doc : Document) (w : World) (texts : list str) :
  forall (first : nat) (text_parts : list str),
    (forall i text,
        nth_error texts i = Some text ->
        exists page,
          load_page doc (first + i) = Returns page
          /\ get_text page = Returns text) ->
    exists ev,
      ExtractPdfText.page_loop category normalize_NFKD doc
        (seq first (List.length texts)) text_parts w
      = (Returns (text_parts
                    ++ page_parts category normalize_NFKD first texts),
         ev).
Proof.
  induction texts as [|text rest IH]; intros first text_parts Hpages.
  - exists []. simpl. now rewrite List.app_nil_r.
  - destruct (Hpages 0%nat text eq_refl) as (page & Hload & Htext).
    rewrite Nat.add_0_r in Hload.
    assert (forall i t,
               nth_error rest i = Some t ->
               exists page,
                 load_page doc (S first + i) = Returns page
                 /\ get_text page = Returns t) as Hrest.
    { intros i t Hi. specialize (Hpages (S i) t Hi).
      now rewrite Nat.add_succ_r in Hpages. }
    change (seq first (List.length (text :: rest)))
      with (first :: seq (S first) (List.length rest)).
    rewrite plain_page_loop_cons.
    rewrite (run_bind (doc_load_page doc first) _ w page
               [Ok (DocLoadPage first)])
      by (unfold doc_load_page, invoke; now rewrite Hload).
    rewrite (run_bind (page_get_text first page) _ w text
               [Ok (PageGetText first)])
      by (unfold page_get_text, invoke; now rewrite Htext).
    cbn [page_parts].
    destruct (truthy (strip text)).
    + destruct (IH (S first)
                  (text_parts ++
                     [lit "--- Page " ++ str_of_nat (first + 1) ++ lit " ---"
                        ++ nl ++ ExtractPdfText.clean_unicode_text
                                   category normalize_NFKD text])
                  Hrest) as [ev Hev].
      rewrite Hev. cbn [fst snd]. eexists. f_equal. f_equal.
      rewrite <- app_assoc. f_equal. cbn [app]. f_equal.
      unfold page_marker. now rewrite <- !app_assoc.
    + destruct (IH (S first) text_parts Hrest) as [ev Hev].
      rewrite Hev. cbn [fst snd]. eexists. reflexivity.
Qed.

(** C10. When the document opens and all its pages can be read, the
    plain-text extractor returns the parts of the pages that are not
    blank, joined by an empty line: a page whose text is empty or white
    space contributes nothing, and no part begins with the marker line of
    its number.  On [gap.pdf], whose second page is blank, the markers of
    the result are those of pages 1 and 3. *)
Theorem blank_pages_are_omitted :
  forall (category : codepoint -> general_category)
         (normalize_NFKD : codepoint -> outcome str)
         (w : World) (pdf_path : str) (doc : Document) (texts : list str),
    fitz_open w pdf_path = Returns doc ->
    has_pages doc texts ->
    close doc = Returns tt ->
    result_of (ExtractPdfText.extract_pdf_text category normalize_NFKD
                 pdf_path) w
    = Returns (join (nl ++ nl) (page_parts category normalize_NFKD 0 texts))
    /\ (forall k text,
           nth_error texts k = Some text ->
           truthy (strip text) = false ->
           forall part rest,
             In part (page_parts category normalize_NFKD 0 texts) ->
             part <> page_marker (k + 1) ++ rest)
    /\ result_of (ExtractPdfText.extract_pdf_text category normalize_NFKD
                    (lit "gap.pdf")) Samples.sample_world
       = Returns (lit "--- Page 1 ---" ++ nl ++ lit "A" ++ nl ++ nl
                    ++ lit "--- Page 3 ---" ++ nl ++ lit "B").
Proof.
  intros category normalize_NFKD w pdf_path doc texts Hopen [Hcount Hpages]
         Hclose.
  repeat split.
  - destruct (plain_page_loop_run category normalize_NFKD doc w texts
                0%nat [] Hpages) as [ev Hev].
    unfold ExtractPdfText.extract_pdf_text,
      ExtractPdfText.extract_pdf_text_try, result_of, run, try_except.
    rewrite (run_bind (fitz_open_ pdf_path) _ w doc [Ok (FitzOpen pdf_path)])
      by (unfold fitz_open_, invoke; now rewrite Hopen).
    rewrite (run_bind (doc_page_count doc) _ w (List.length texts)
               [Ok DocPageCount])
      by (unfold doc_page_count, invoke; now rewrite Hcount).
    rewrite (run_bind _ _ w _ _ Hev).
    rewrite (run_bind (doc_close doc) _ w tt [Ok DocClose])
      by (unfold doc_close, invoke; now rewrite Hclose).
    reflexivity.
  - intros k text Hk Hblank part rest Hin Heq.
    apply page_parts_origin in Hin.
    destruct Hin as (i & t & Hi & Ht & ->).
    apply page_marker_inj in Heq.
    assert (i = k) as -> by lia.
    congruence.
Qed.

Lemma blank_pages_are_omitted_witness :
  result_of (ExtractPdfText.extract_pdf_text
               Samples.category Samples.normalize_NFKD (lit "gap.pdf"))
            Samples.sample_world
  = Returns (join (nl ++ nl)
               (page_parts Samples.category Samples.normalize_NFKD 0
                  [lit "A"; lit " " ++ nl; lit "B"]))
  /\ (forall k text,
         nth_error [lit "A"; lit " " ++ nl; lit "B"] k = Some text ->
         truthy (strip text) = false ->
         forall part rest,
           In part (page_parts Samples.category Samples.normalize_NFKD 0
                      [lit "A"; lit " " ++ nl; lit "B"]) ->
           part <> page_marker (k + 1) ++ rest)
  /\ result_of (ExtractPdfText.extract_pdf_text
                  Samples.category Samples.normalize_NFKD (lit "gap.pdf"))
               Samples.sample_world
     = Returns (lit "--- Page 1 ---" ++ nl ++ lit "A" ++ nl ++ nl
                  ++ lit "--- Page 3 ---" ++ nl ++ lit "B").
Proof.
  apply (blank_pages_are_omitted Samples.category Samples.normalize_NFKD
           Samples.sample_world (lit "gap.pdf") Samples.gap_pdf
           [lit "A"; lit " " ++ nl; lit "B"]).
  - reflexivity.
  - split; [reflexivity|].
    intros [|[|[|i]]] text H; simpl in H;
      [| | |destruct i; discriminate H];
      injection H as <-; eexists; split; reflexivity.
  - reflexivity.
Defined.

(* ------------------------------------------------------------------ *)
(** * Further properties *)

(** ** The normalizer, character by character *)

Lemma table_values_settled (c : codepoint) (kv : codepoint * str) :
  find (fun kv => N.eqb c (fst kv)) replacements = Some kv ->
  Forall settled (snd kv).
Proof.
  unfold replacements, find, fst.
  repeat match goal with
         | |- context [N.eqb c ?k] =>
             destruct (N.eqb_spec c k) as [->|?];
             [intros H; injection H as <-; simpl;
              repeat constructor; unfold settled; lia|]
         end.
  discriminate.
Qed.

Lemma substitute_then_clean
    (category : codepoint -> general_category)
    (normalize_NFKD : codepoint -> outcome str) (c : codepoint) :
  flat_map (clean_char category normalize_NFKD) (substitute c)
  = normalize_char category normalize_NFKD c.
Proof.
  unfold substitute, normalize_char.
  destruct (find (fun kv => c =? fst kv) replacements) as [kv|] eqn:E.
  - apply flat_map_clean_settled. now apply (table_values_settled c).
  - simpl. apply List.app_nil_r.
Qed.

(** X1. The two passes of [clean_unicode_text] (the replacement loop over
    the whole text, then the classification loop) amount to one pass
    that decides each character on its own: a key of the table gives its
    entry, any other character what the classification gives. *)
Theorem clean_unicode_text_single_pass :
  forall (category : codepoint -> general_category)
         (normalize_NFKD : codepoint -> outcome str) (text : str),
    clean_unicode_text category normalize_NFKD text
    = flat_map (normalize_char category normalize_NFKD) text.
Proof.
  intros category normalize_NFKD text.
  rewrite clean_unicode_text_flat_map.
  apply flat_map_ext. intros c. apply substitute_then_clean.
Qed.

Lemma table_lookup (k : codepoint) (v : str) :
  In (k, v) replacements ->
  find (fun kv => N.eqb k (fst kv)) replacements = Some (k, v).
Proof.
  unfold replacements. simpl.
  intros H.
  repeat (destruct H as [H|H]; [injection H as <- <-; reflexivity|]).
  contradiction.
Qed.

(** X2. A key of the replacement table comes out as its table entry,
    whatever stands before and after it. *)
Theorem replacement_in_context :
  forall (category : codepoint -> general_category)
         (normalize_NFKD : codepoint -> outcome str)
         (pre post : str) (k : codepoint) (v : str),
    In (k, v) replacements ->
    clean_unicode_text category normalize_NFKD (pre ++ k :: post)
    = clean_unicode_text category normalize_NFKD pre
        ++ v ++ clean_unicode_text category normalize_NFKD post.
Proof.
  intros category normalize_NFKD pre post k v Hin.
  rewrite !clean_unicode_text_single_pass, flat_map_app. simpl.
  unfold normalize_char at 2. now rewrite (table_lookup k v Hin).
Qed.

Lemma replacement_in_context_witness :
  clean_unicode_text Samples.category Samples.normalize_NFKD
    (lit "a" ++ 0x2014 :: [0xFB01])
  = clean_unicode_text Samples.category Samples.normalize_NFKD (lit "a")
      ++ lit "-"
      ++ clean_unicode_text Samples.category Samples.normalize_NFKD [0xFB01].
Proof.
  apply (replacement_in_context Samples.category Samples.normalize_NFKD
           (lit "a") [0xFB01] 0x2014 (lit "-")).
  simpl. auto 10.
Defined.

Lemma normalize_char_not_empty
    (category : codepoint -> general_category)
    (normalize_NFKD : codepoint -> outcome str) (c : codepoint) :
  normalize_char category normalize_NFKD c <> [].
Proof.
  unfold normalize_char, replacements, find, fst, snd.
  repeat match goal with
         | |- context [N.eqb c ?k] =>
             destruct (N.eqb_spec c k) as [->|?]; [discriminate|]
         end.
  apply clean_char_not_empty.
Qed.

(** X3. The normalizer deletes nothing: every input character leaves at
    least one character, so the result is at least as long as the input
    and is empty only for the empty input. *)
Theorem clean_unicode_text_never_shrinks :
  forall (category : codepoint -> general_category)
         (normalize_NFKD : codepoint -> outcome str) (text : str),
    (List.length text
     <= List.length (clean_unicode_text category normalize_NFKD text))%nat
    /\ (clean_unicode_text category normalize_NFKD text = [] <-> text = []).
Proof.
  intros category normalize_NFKD text.
  rewrite clean_unicode_text_single_pass.
  assert (List.length text
          <= List.length (flat_map (normalize_char category normalize_NFKD)
                                   text))%nat as Hlen.
  { induction text as [|c text IH]; simpl; [lia|].
    rewrite length_app.
    pose proof (normalize_char_not_empty category normalize_NFKD c) as Hc.
    destruct (normalize_char category normalize_NFKD c); [congruence|].
    simpl. lia. }
  split; [exact Hlen|]. split.
  - intros E. rewrite E in Hlen. destruct text; [reflexivity|].
    simpl in Hlen. lia.
  - now intros ->.
Qed.

(** X4. A character that is neither passed through nor a key of the table
    becomes exactly one space when its category is not a letter, number,
    punctuation, symbol or separator (controls, format characters,
    combining marks, unassigned code points), when [normalize] raises, or
    when its decomposition is not a single code point below 256 and has
    no ASCII part. *)
Theorem space_fallback :
  forall (category : codepoint -> general_category)
         (normalize_NFKD : codepoint -> outcome str)
         (pre post : str) (c : codepoint),
    ~ passes c ->
    is_key c = false ->
    (in_LNPSZ (category c) = false
     \/ (exists msg, normalize_NFKD c = Raises msg)
     \/ (exists decomposed,
            normalize_NFKD c = Returns decomposed
            /\ single_below_256 decomposed = false
            /\ encode_ascii_ignore decomposed = [])) ->
    clean_unicode_text category normalize_NFKD (pre ++ c :: post)
    = clean_unicode_text category normalize_NFKD pre
        ++ lit " " ++ clean_unicode_text category normalize_NFKD post.
Proof.
  intros category normalize_NFKD pre post c Hpass Hkey Hcase.
  rewrite !clean_unicode_text_single_pass, flat_map_app. simpl.
  do 2 f_equal.
  rewrite <- substitute_then_clean, substitute_not_key by exact Hkey.
  simpl. rewrite List.app_nil_r.
  unfold passes in Hpass. unfold clean_char, try_normalize.
  destruct (N.ltb_spec c 128); [exfalso; lia|].
  destruct (N.leb_spec 160 c); simpl;
    [destruct (N.ltb_spec c 256); [exfalso; lia|]|];
    (destruct Hcase as [->|[[msg ->]|(d & -> & -> & Ha)]];
     [reflexivity
     |now destruct (in_LNPSZ (category c))
     |rewrite Ha; now destruct (in_LNPSZ (category c))]).
Qed.

Lemma space_fallback_witness :
  clean_unicode_text Samples.category Samples.normalize_NFKD
    (lit "a" ++ 0x200B :: lit "b")
  = clean_unicode_text Samples.category Samples.normalize_NFKD (lit "a")
      ++ lit " "
      ++ clean_unicode_text Samples.category Samples.normalize_NFKD (lit "b").
Proof.
  apply (space_fallback Samples.category Samples.normalize_NFKD
           (lit "a") (lit "b") 0x200B).
  - unfold passes. lia.
  - reflexivity.
  - left. reflexivity.
Defined.

(** X5. A letter, number, punctuation mark, symbol or separator that is
    neither passed through nor a key of the table comes out as its
    decomposition when that is a single code point below 256, and
    otherwise as the ASCII part of its decomposition when there is
    one. *)
Theorem decomposition_outcome :
  forall (category : codepoint -> general_category)
         (normalize_NFKD : codepoint -> outcome str)
         (pre post decomposed : str) (c : codepoint),
    ~ passes c ->
    is_key c = false ->
    in_LNPSZ (category c) = true ->
    normalize_NFKD c = Returns decomposed ->
    (single_below_256 decomposed = true
     \/ encode_ascii_ignore decomposed <> []) ->
    clean_unicode_text category normalize_NFKD (pre ++ c :: post)
    = clean_unicode_text category normalize_NFKD pre
        ++ (if single_below_256 decomposed then decomposed
            else encode_ascii_ignore decomposed)
        ++ clean_unicode_text category normalize_NFKD post.
Proof.
  intros category normalize_NFKD pre post decomposed c
         Hpass Hkey Hcat Hn Hcase.
  rewrite !clean_unicode_text_single_pass, flat_map_app. simpl.
  do 2 f_equal.
  rewrite <- substitute_then_clean, substitute_not_key by exact Hkey.
  simpl. rewrite List.app_nil_r.
  unfold passes in Hpass. unfold clean_char, try_normalize.
  rewrite Hcat, Hn.
  destruct (N.ltb_spec c 128); [exfalso; lia|].
  destruct (N.leb_spec 160 c); simpl;
    [destruct (N.ltb_spec c 256); [exfalso; lia|]|];
    (destruct (single_below_256 decomposed); [reflexivity|];
     destruct Hcase as [Hs|Ha]; [discriminate Hs|];
     now destruct (encode_ascii_ignore decomposed)).
Qed.

Lemma decomposition_outcome_witness :
  clean_unicode_text Samples.category Samples.normalize_NFKD
    (lit "a" ++ 0xFB01 :: lit "b")
  = clean_unicode_text Samples.category Samples.normalize_NFKD (lit "a")
      ++ (if single_below_256 (lit "fi") then lit "fi"
          else encode_ascii_ignore (lit "fi"))
      ++ clean_unicode_text Samples.category Samples.normalize_NFKD (lit "b").
Proof.
  apply (decomposition_outcome Samples.category Samples.normalize_NFKD
           (lit "a") (lit "b") (lit "fi") 0xFB01).
  - unfold passes. lia.
  - reflexivity.
  - reflexivity.
  - reflexivity.
  - right. discriminate.
Defined.

(** X6. The texts the normalizer leaves unchanged are exactly those whose
    code points all lie in [0,127] or [161,255].  (For the direction from
    left to right the Unicode database is assumed, as for idempotence,
    never to decompose a character of a category L, N, P, S or Z to a
    single code point in [128,160].) *)
Theorem clean_unicode_text_fixed_points :
  forall (category : codepoint -> general_category)
         (normalize_NFKD : codepoint -> outcome str),
    (forall c d, in_LNPSZ (category c) = true ->
                 normalize_NFKD c = Returns [d] ->
                 d < 128 \/ 160 < d) ->
    forall text : str,
      clean_unicode_text category normalize_NFKD text = text
      <-> Forall settled text.
Proof.
  intros category normalize_NFKD Hnfkd text. split.
  - intros E. rewrite <- E. rewrite clean_unicode_text_flat_map.
    apply Forall_flat_map, Forall_forall. intros c _.
    destruct (substitute_settled_or_same c) as [Hs|[-> Hc]].
    + now rewrite flat_map_clean_settled.
    + simpl. rewrite List.app_nil_r.
      apply clean_char_cases; unfold settled; try lia.
      intros d Hcat Hd Hlt. destruct (Hnfkd c d Hcat Hd); lia.
  - apply clean_settled.
Qed.

Lemma clean_unicode_text_fixed_points_witness :
  clean_unicode_text Samples.category Samples.normalize_NFKD
    (lit "Caf" ++ [0xE9])
  = lit "Caf" ++ [0xE9]
  <-> Forall settled (lit "Caf" ++ [0xE9]).
Proof.
  apply (clean_unicode_text_fixed_points
           Samples.category Samples.normalize_NFKD sample_nfkd_closed).
Defined.

(** ** How a run ends *)

Lemma body_run_cases {A : Type} (body : M A) (w : World) :
  faithful body ->
  (exists a ev, body w = (Returns a, ev) /\ quiet ev)
  \/ (exists msg pre c,
        body w = (Raises msg, pre ++ [Failed c msg]) /\ quiet pre).
Proof.
  intros Hf. specialize (Hf w). destruct (body w) as [[a|msg] ev].
  - left. eauto.
  - right. destruct Hf as (pre & c & -> & Hq). eauto.
Qed.

Lemma bind_result {A B : Type} (m : M A) (k : A -> M B) (w : World) (a : A) :
  result_of m w = Returns a ->
  run (bind m k) w = (fst (k a w), trace_of m w ++ snd (k a w)).
Proof.
  unfold result_of, trace_of, run. intros H.
  destruct (m w) as [r ev] eqn:E. simpl in H. subst r.
  now apply run_bind.
Qed.

Lemma plain_extractor_returns
    (category : codepoint -> general_category)
    (normalize_NFKD : codepoint -> outcome str)
    (w : World) (pdf_path : str) :
  exists text,
    result_of (ExtractPdfText.extract_pdf_text category normalize_NFKD
                 pdf_path) w = Returns text.
Proof.
  unfold ExtractPdfText.extract_pdf_text, result_of, run, try_except.
  destruct (ExtractPdfText.extract_pdf_text_try _ _ _ w) as [[a|e] ev];
    cbn; eauto.
Qed.

Lemma pdf_extractor_returns (w : World) (pdf_path : str) :
  exists j, result_of (PdfExtractor.extract_pdf_text pdf_path) w = Returns j.
Proof.
  unfold PdfExtractor.extract_pdf_text. apply try_except_returns.
Qed.

(** X7. No exception leaves an extractor or a script: whatever the
    outside calls do, each of the three extraction functions returns a
    value and each of the three scripts ends with an exit status. *)
Theorem no_exception_escapes :
  forall (category : codepoint -> general_category)
         (normalize_NFKD : codepoint -> outcome str)
         (w : World) (pdf_path : str) (argv : list str),
    (exists text,
        result_of (ExtractPdfText.extract_pdf_text category normalize_NFKD
                     pdf_path) w = Returns text)
    /\ (exists j,
           result_of (PymupdfExtractor.extract_text_from_pdf pdf_path) w
           = Returns j)
    /\ (exists j,
           result_of (PdfExtractor.extract_pdf_text pdf_path) w = Returns j)
    /\ (exists status,
           result_of (ExtractPdfText.main category normalize_NFKD argv) w
           = Returns status)
    /\ (exists status,
           result_of (PymupdfExtractor.main argv) w = Returns status)
    /\ (exists status,
           result_of (PdfExtractor.main argv) w = Returns status).
Proof.
  intros category normalize_NFKD w pdf_path argv.
  split; [apply plain_extractor_returns|].
  split; [apply pymupdf_extractor_returns|].
  split; [apply pdf_extractor_returns|].
  split; [|split].
  - unfold ExtractPdfText.main.
    destruct (negb (List.length argv =? 2)%nat); [cbn; eauto|].
    destruct (plain_extractor_returns category normalize_NFKD w
                (nth 1 argv [])) as [text Ht].
    unfold result_of at 1. rewrite (bind_result _ _ w text Ht).
    destruct (truthy text); cbn; eauto.
  - unfold PymupdfExtractor.main.
    destruct (List.length argv <? 2)%nat; [cbn; eauto|].
    destruct (pymupdf_extractor_returns w (nth 1 argv [])) as [j Hj].
    unfold result_of at 1. rewrite (bind_result _ _ w j Hj). cbn. eauto.
  - unfold PdfExtractor.main.
    destruct (negb (List.length argv =? 2)%nat); [cbn; eauto|].
    destruct (pdf_extractor_returns w (nth 1 argv [])) as [j Hj].
    unfold result_of at 1. rewrite (bind_result _ _ w j Hj). cbn. eauto.
Qed.

(** X8. Extraction stops at the first failure: in a run of any of the
    three extractors at most one outside call fails, the calls before it
    all returned, and no outside call follows it. *)
Theorem no_call_after_failure :
  forall (w : World) (pdf_path : str) (tr : list event),
    extraction_trace w pdf_path tr ->
    quiet tr
    \/ exists pre c msg post,
         tr = pre ++ Failed c msg :: post
         /\ quiet pre
         /\ Forall (fun e => outside_call e = false) post.
Proof.
  intros w pdf_path tr Hrun. destruct Hrun.
  - unfold ExtractPdfText.extract_pdf_text, trace_of, run, try_except.
    destruct (body_run_cases
                (ExtractPdfText.extract_pdf_text_try category normalize_NFKD
                   pdf_path) w (plain_try_faithful _ _ _))
      as [(a & ev & -> & Hq)|(msg & pre & c & -> & Hq)].
    + now left.
    + right. exists pre, c, msg. eexists. cbn. rewrite <- app_assoc.
      split; [reflexivity|]. split; [exact Hq|]. now repeat constructor.
  - unfold PymupdfExtractor.extract_text_from_pdf, trace_of, run, try_except.
    destruct (body_run_cases
                (PymupdfExtractor.extract_text_from_pdf_try pdf_path) w
                (pymupdf_try_faithful _))
      as [(a & ev & -> & Hq)|(msg & pre & c & -> & Hq)].
    + now left.
    + right. exists pre, c, msg, []. cbn. rewrite List.app_nil_r.
      split; [reflexivity|]. split; [exact Hq|constructor].
  - unfold PdfExtractor.extract_pdf_text, trace_of, run, try_except.
    destruct (body_run_cases
                (PdfExtractor.extract_pdf_text_try pdf_path) w
                (pdf_extractor_try_faithful _))
      as [(a & ev & -> & Hq)|(msg & pre & c & -> & Hq)].
    + now left.
    + right. exists pre, c, msg, []. cbn. rewrite List.app_nil_r.
      split; [reflexivity|]. split; [exact Hq|constructor].
Qed.

Lemma no_call_after_failure_witness :
  quiet (trace_of (PdfExtractor.extract_pdf_text (lit "broken.pdf"))
                  Samples.sample_world)
  \/ exists pre c msg post,
       trace_of (PdfExtractor.extract_pdf_text (lit "broken.pdf"))
                Samples.sample_world
       = pre ++ Failed c msg :: post
       /\ quiet pre
       /\ Forall (fun e => outside_call e = false) post.
Proof.
  apply (no_call_after_failure Samples.sample_world (lit "broken.pdf")).
  apply pdf_extractor_trace.
Defined.

Lemma calls_only_ret {A : Type} (a : A) : calls_only (ret a).
Proof. intros w. constructor. Qed.

Lemma calls_only_invoke {A : Type} (c : call) (r : outcome A) :
  calls_only (invoke c r).
Proof. intros w. unfold invoke. destruct r; repeat constructor. Qed.

Lemma calls_only_fitz_open (p : str) : calls_only (fitz_open_ p).
Proof. intros w. apply (calls_only_invoke (FitzOpen p) (fitz_open w p) w). Qed.

Lemma calls_only_bind {A B : Type} (m : M A) (k : A -> M B) :
  calls_only m -> (forall a, calls_only (k a)) -> calls_only (bind m k).
Proof.
  intros Hm Hk w. unfold bind. specialize (Hm w).
  destruct (m w) as [[a|msg] ev]; [|exact Hm].
  specialize (Hk a w). destruct (k a w) as [r ev']. simpl in *.
  apply Forall_app. now split.
Qed.

Lemma plain_page_loop_calls_only
    (category : codepoint -> general_category)
    (normalize_NFKD : codepoint -> outcome str)
    (doc : Document) (page_nums : list nat) :
  forall text_parts,
    calls_only (ExtractPdfText.page_loop category normalize_NFKD doc page_nums
                                         text_parts).
Proof.
  induction page_nums as [|page_num rest IH]; intros text_parts; simpl;
    repeat first [ apply calls_only_bind; [|intros] | apply calls_only_ret
                 | apply calls_only_invoke | apply IH | branch ].
Qed.

Lemma plain_try_calls_only
    (category : codepoint -> general_category)
    (normalize_NFKD : codepoint -> outcome str) (pdf_path : str) :
  calls_only (ExtractPdfText.extract_pdf_text_try category normalize_NFKD
                                                  pdf_path).
Proof.
  unfold ExtractPdfText.extract_pdf_text_try.
  repeat first [ apply calls_only_bind; [|intros] | apply calls_only_ret
               | apply calls_only_fitz_open | apply calls_only_invoke
               | apply plain_page_loop_calls_only ].
Qed.

(** A run of the plain-text extractor in which a call fails. *)
Lemma plain_failure_run
    (category : codepoint -> general_category)
    (normalize_NFKD : codepoint -> outcome str)
    (w : World) (pdf_path : str) (c : call) (msg : str) :
  In (Failed c msg)
     (trace_of (ExtractPdfText.extract_pdf_text category normalize_NFKD
                  pdf_path) w) ->
  exists pre,
    run (ExtractPdfText.extract_pdf_text category normalize_NFKD pdf_path) w
    = (Returns [],
       pre ++ [Failed c msg; Stderr (lit "Error extracting PDF: " ++ msg)])
    /\ Forall (fun e => exists c', e = Ok c') pre.
Proof.
  unfold ExtractPdfText.extract_pdf_text, trace_of, run, try_except.
  pose proof (plain_try_calls_only category normalize_NFKD pdf_path w) as Hc.
  destruct (body_run_cases
              (ExtractPdfText.extract_pdf_text_try category normalize_NFKD
                 pdf_path) w (plain_try_faithful _ _ _))
    as [(a & ev & E & Hq)|(msg' & pre & c' & E & Hq)];
    rewrite E in *; cbn in *.
  - intros Hin. exfalso.
    apply (proj1 (Forall_forall _ _) Hq) in Hin. discriminate Hin.
  - intros Hin. rewrite <- app_assoc in Hin. cbn in Hin.
    assert (Failed c msg = Failed c' msg') as Heq.
    { apply in_app_or in Hin. destruct Hin as [Hin|[Hin|[Hin|[]]]].
      - apply (proj1 (Forall_forall _ _) Hq) in Hin. discriminate Hin.
      - now symmetry.
      - discriminate Hin. }
    injection Heq as <- <-.
    exists pre. rewrite <- app_assoc. split; [reflexivity|].
    apply Forall_app in Hc. destruct Hc as [Hc _].
    apply Forall_forall. intros e He.
    pose proof (proj1 (Forall_forall _ _) Hc e He) as H1.
    pose proof (proj1 (Forall_forall _ _) Hq e He) as H2.
    destruct e; try discriminate; eauto.
Qed.

(** X9. When an outside call fails with message [msg] during a run of
    the plain-text extractor, the extractor returns the empty string,
    and the run consists of returned calls, the failed call, and the
    line "Error extracting PDF: " followed by [msg] on standard error. *)
Theorem plain_extractor_failure :
  forall (category : codepoint -> general_category)
         (normalize_NFKD : codepoint -> outcome str)
         (w : World) (pdf_path : str) (c : call) (msg : str),
    In (Failed c msg)
       (trace_of (ExtractPdfText.extract_pdf_text category normalize_NFKD
                    pdf_path) w) ->
    result_of (ExtractPdfText.extract_pdf_text category normalize_NFKD
                 pdf_path) w = Returns []
    /\ exists pre,
         trace_of (ExtractPdfText.extract_pdf_text category normalize_NFKD
                     pdf_path) w
         = pre ++ [Failed c msg;
                   Stderr (lit "Error extracting PDF: " ++ msg)]
         /\ Forall (fun e => exists c', e = Ok c') pre.
Proof.
  intros category normalize_NFKD w pdf_path c msg Hin.
  destruct (plain_failure_run category normalize_NFKD w pdf_path c msg Hin)
    as (pre & Hrun & Hpre).
  unfold result_of, trace_of. rewrite Hrun. split; [reflexivity|].
  exists pre. now split.
Qed.

Lemma plain_extractor_failure_witness :
  result_of (ExtractPdfText.extract_pdf_text Samples.category
               Samples.normalize_NFKD (lit "corrupt.pdf"))
            Samples.sample_world = Returns []
  /\ exists pre,
       trace_of (ExtractPdfText.extract_pdf_text Samples.category
                   Samples.normalize_NFKD (lit "corrupt.pdf"))
                Samples.sample_world
       = pre ++ [Failed (FitzOpen (lit "corrupt.pdf"))
                        (lit "cannot open broken document");
                 Stderr (lit "Error extracting PDF: "
                           ++ lit "cannot open broken document")]
       /\ Forall (fun e => exists c', e = Ok c') pre.
Proof.
  apply (plain_extractor_failure Samples.category Samples.normalize_NFKD
           Samples.sample_world (lit "corrupt.pdf")).
  vm_compute. auto.
Defined.

(** X10. Given one path argument, when an outside call fails the script
    [extract_pdf_text.py] exits with status 1; it prints nothing on
    standard output, and on standard error the extractor's error line
    followed by "Failed to extract text from PDF". *)
Theorem plain_main_failure :
  forall (category : codepoint -> general_category)
         (normalize_NFKD : codepoint -> outcome str)
         (w : World) (argv : list str) (c : call) (msg : str),
    List.length argv = 2%nat ->
    In (Failed c msg)
       (trace_of (ExtractPdfText.main category normalize_NFKD argv) w) ->
    exists pre,
      run (ExtractPdfText.main category normalize_NFKD argv) w
      = (Returns 1%nat,
         pre ++ [Failed c msg;
                 Stderr (lit "Error extracting PDF: " ++ msg);
                 Stderr (lit "Failed to extract text from PDF")])
      /\ Forall (fun e => exists c', e = Ok c') pre.
Proof.
  intros category normalize_NFKD w argv c msg Hlen.
  unfold ExtractPdfText.main. rewrite Hlen. cbn [Nat.eqb negb].
  destruct (plain_extractor_returns category normalize_NFKD w (nth 1 argv []))
    as [text Ht].
  unfold trace_of at 1. rewrite (bind_result _ _ w text Ht). cbn [snd].
  intros Hin.
  assert (In (Failed c msg)
             (trace_of (ExtractPdfText.extract_pdf_text category
                          normalize_NFKD (nth 1 argv [])) w)) as Hin'.
  { apply in_app_or in Hin. destruct Hin as [Hin|Hin]; [exact Hin|].
    exfalso. destruct (truthy text); cbn in Hin;
      destruct Hin as [Hin|[]]; discriminate Hin. }
  destruct (plain_failure_run category normalize_NFKD w (nth 1 argv [])
              c msg Hin') as (pre & Hrun & Hpre).
  assert (text = []) as ->.
  { unfold result_of in Ht. rewrite Hrun in Ht. now injection Ht. }
  exists pre. split; [|exact Hpre].
  unfold trace_of. rewrite Hrun. cbn. now rewrite <- app_assoc.
Qed.

Lemma plain_main_failure_witness :
  exists pre,
    run (ExtractPdfText.main Samples.category Samples.normalize_NFKD
           [lit "extract_pdf_text.py"; lit "broken.pdf"])
        Samples.sample_world
    = (Returns 1%nat,
       pre ++ [Failed (DocLoadPage 0) (lit "cannot load page");
               Stderr (lit "Error extracting PDF: " ++ lit "cannot load page");
               Stderr (lit "Failed to extract text from PDF")])
    /\ Forall (fun e => exists c', e = Ok c') pre.
Proof.
  apply (plain_main_failure Samples.category Samples.normalize_NFKD
           Samples.sample_world
           [lit "extract_pdf_text.py"; lit "broken.pdf"]).
  - reflexivity.
  - vm_compute. auto 10.
Defined.

(** ** Runs on a document that can be read *)

Lemma pages_from_step (doc : Document) (first : nat) (text : str)
    (rest : list str) :
  pages_from doc first (text :: rest) ->
  (exists page,
      load_page doc first = Returns page /\ get_text page = Returns text)
  /\ pages_from doc (S first) rest.
Proof.
  intros H. split.
  - destruct (H 0%nat text eq_refl) as (page & Hl & Ht).
    rewrite Nat.add_0_r in Hl. eauto.
  - intros i t Hi. specialize (H (S i) t Hi).
    now rewrite Nat.add_succ_r in H.
Qed.

Lemma doc_load_page_run (doc : Document) (page_num : nat) (page : Page)
    (w : World) :
  load_page doc page_num = Returns page ->
  doc_load_page doc page_num w = (Returns page, [Ok (DocLoadPage page_num)]).
Proof. unfold doc_load_page, invoke. now intros ->. Qed.

Lemma page_get_text_run (page_num : nat) (page : Page) (text : str)
    (w : World) :
  get_text page = Returns text ->
  page_get_text page_num page w = (Returns text, [Ok (PageGetText page_num)]).
Proof. unfold page_get_text, invoke. now intros ->. Qed.

Lemma fitz_open_run (w : World) (pdf_path : str) (doc : Document) :
  fitz_open w pdf_path = Returns doc ->
  fitz_open_ pdf_path w = (Returns doc, [Ok (FitzOpen pdf_path)]).
Proof. unfold fitz_open_, invoke. now intros ->. Qed.

Lemma doc_page_count_run (doc : Document) (n : nat) (w : World) :
  page_count doc = Returns n ->
  doc_page_count doc w = (Returns n, [Ok DocPageCount]).
Proof. unfold doc_page_count, invoke. now intros ->. Qed.

Lemma doc_close_run (doc : Document) (w : World) :
  close doc = Returns tt ->
  doc_close doc w = (Returns tt, [Ok DocClose]).
Proof. unfold doc_close, invoke. now intros ->. Qed.

Lemma doc_metadata_get_run (doc : Document) (md : list (String.string * str))
    (key : String.string) (w : World) :
  metadata doc = Returns md ->
  doc_metadata_get doc key w
  = (Returns (metadata_field md key), [Ok DocMetadata]).
Proof.
  unfold doc_metadata_get, bind, invoke, ret, metadata_field. now intros ->.
Qed.

Lemma path_stat_run (w : World) (pdf_path : str) (size : nat) :
  stat_size w pdf_path = Returns size ->
  path_stat_st_size pdf_path w = (Returns size, [Ok (PathStat pdf_path)]).
Proof. unfold path_stat_st_size, invoke. now intros ->. Qed.

Lemma plain_page_loop_readable
    (category : codepoint -> general_category)
    (normalize_NFKD : codepoint -> outcome str)
    (doc : Document) (w : World) (texts : list str) :
  forall (first : nat) (text_parts : list str),
    pages_from doc first texts ->
    ExtractPdfText.page_loop category normalize_NFKD doc
      (seq first (List.length texts)) text_parts w
    = (Returns (text_parts ++ page_parts category normalize_NFKD first texts),
       page_calls first (List.length texts)).
Proof.
  induction texts as [|text rest IH]; intros first text_parts Hpages.
  - cbn. now rewrite List.app_nil_r.
  - apply pages_from_step in Hpages.
    destruct Hpages as [(page & Hload & Htext) Hrest].
    change (seq first (List.length (text :: rest)))
      with (first :: seq (S first) (List.length rest)).
    rewrite plain_page_loop_cons.
    rewrite (run_bind _ _ w _ _ (doc_load_page_run doc first page w Hload)).
    rewrite (run_bind _ _ w _ _ (page_get_text_run first page text w Htext)).
    cbn [page_parts].
    destruct (truthy (strip text)); rewrite (IH _ _ Hrest); cbn [fst snd].
    + f_equal. f_equal. rewrite <- app_assoc. f_equal. cbn [app]. f_equal.
      unfold page_marker. now rewrite <- !app_assoc.
    + reflexivity.
Qed.

Lemma pymupdf_page_loop_readable (doc : Document) (w : World)
    (texts : list str) :
  forall (first : nat) (full_text : str) (page_texts : list json),
    pages_from doc first texts ->
    PymupdfExtractor.page_loop doc (seq first (List.length texts))
                               (full_text, page_texts) w
    = (Returns (full_text ++ List.concat (imap page_segment first texts),
                page_texts ++ imap page_record first texts),
       page_calls first (List.length texts)).
Proof.
  induction texts as [|text rest IH]; intros first full_text page_texts Hpages.
  - cbn. now rewrite !List.app_nil_r.
  - apply pages_from_step in Hpages.
    destruct Hpages as [(page & Hload & Htext) Hrest].
    change (seq first (List.length (text :: rest)))
      with (first :: seq (S first) (List.length rest)).
    cbn [PymupdfExtractor.page_loop].
    rewrite (run_bind _ _ w _ _ (doc_load_page_run doc first page w Hload)).
    rewrite (run_bind _ _ w _ _ (page_get_text_run first page text w Htext)).
    cbv zeta. rewrite (IH _ _ _ Hrest). cbn [fst snd imap List.concat].
    f_equal. f_equal. f_equal.
    + unfold page_segment. now rewrite <- !app_assoc.
    + now rewrite <- app_assoc.
Qed.

Lemma pdf_extractor_page_loop_readable (doc : Document) (w : World)
    (texts : list str) :
  forall (first : nat) (full_text : str) (page_texts : list json),
    pages_from doc first texts ->
    PdfExtractor.page_loop doc (seq first (List.length texts))
                           (full_text, page_texts) w
    = (Returns (full_text ++ List.concat (map (fun t => t ++ nl) texts),
                page_texts ++ map JStr texts),
       page_calls first (List.length texts)).
Proof.
  induction texts as [|text rest IH]; intros first full_text page_texts Hpages.
  - cbn. now rewrite !List.app_nil_r.
  - apply pages_from_step in Hpages.
    destruct Hpages as [(page & Hload & Htext) Hrest].
    change (seq first (List.length (text :: rest)))
      with (first :: seq (S first) (List.length rest)).
    cbn [PdfExtractor.page_loop].
    rewrite (run_bind _ _ w _ _ (doc_load_page_run doc first page w Hload)).
    rewrite (run_bind _ _ w _ _ (page_get_text_run first page text w Htext)).
    cbv zeta. rewrite (IH _ _ _ Hrest). cbn [fst snd map List.concat].
    f_equal. f_equal. f_equal.
    + now rewrite <- !app_assoc.
    + now rewrite <- app_assoc.
Qed.

Lemma plain_readable_run
    (category : codepoint -> general_category)
    (normalize_NFKD : codepoint -> outcome str)
    (w : World) (pdf_path : str) (doc : Document) (texts : list str) :
  fitz_open w pdf_path = Returns doc ->
  has_pages doc texts ->
  close doc = Returns tt ->
  run (ExtractPdfText.extract_pdf_text category normalize_NFKD pdf_path) w
  = (Returns (join (nl ++ nl) (page_parts category normalize_NFKD 0 texts)),
     [Ok (FitzOpen pdf_path); Ok DocPageCount]
       ++ page_calls 0 (List.length texts) ++ [Ok DocClose]).
Proof.
  intros Hopen [Hcount Hpages] Hclose.
  unfold ExtractPdfText.extract_pdf_text, ExtractPdfText.extract_pdf_text_try,
    run, try_except.
  rewrite (run_bind _ _ w _ _ (fitz_open_run w pdf_path doc Hopen)).
  rewrite (run_bind _ _ w _ _ (doc_page_count_run doc _ w Hcount)).
  rewrite (run_bind _ _ w _ _
             (plain_page_loop_readable category normalize_NFKD doc w texts
                0%nat [] Hpages)).
  rewrite (run_bind _ _ w _ _ (doc_close_run doc w Hclose)).
  cbn [fst snd ret app]. rewrite ?List.app_nil_r. reflexivity.
Qed.

Lemma pymupdf_readable_run
    (w : World) (pdf_path : str) (doc : Document)
    (md : list (String.string * str)) (texts : list str) :
  path_exists w pdf_path = true ->
  fitz_open w pdf_path = Returns doc ->
  metadata doc = Returns md ->
  has_pages doc texts ->
  close doc = Returns tt ->
  run (PymupdfExtractor.extract_text_from_pdf pdf_path) w
  = (Returns
       (JDict
          [("success", JBool true);
           ("error", JNull);
           ("text",
            JStr (encode_ascii_ignore
                    (strip (List.concat (imap page_segment 0 texts)))));
           ("metadata",
            JDict [("title", JStr (metadata_field md "title"));
                   ("author", JStr (metadata_field md "author"));
                   ("subject", JStr (metadata_field md "subject"));
                   ("creator", JStr (metadata_field md "creator"));
                   ("producer", JStr (metadata_field md "producer"));
                   ("creationDate", JStr (metadata_field md "creationDate"));
                   ("modDate", JStr (metadata_field md "modDate"));
                   ("pageCount", JInt (List.length texts));
                   ("extractionMethod", JStr (lit "PyMuPDF"));
                   ("extractionTime", JStr (now_isoformat w))]);
           ("pages", JList (imap page_record 0 texts));
           ("totalCharacters",
            JInt (List.length
                    (encode_ascii_ignore
                       (strip (List.concat (imap page_segment 0 texts))))));
           ("processingTime", JStr (lit "local"))]),
     [Ok (PathExists pdf_path); Ok (FitzOpen pdf_path)]
       ++ repeat (Ok DocMetadata) 7
       ++ [Ok DocPageCount; Ok DocPageCount]
       ++ page_calls 0 (List.length texts) ++ [Ok DocClose]).
Proof.
  intros Hex Hopen Hmd [Hcount Hpages] Hclose.
  unfold PymupdfExtractor.extract_text_from_pdf,
    PymupdfExtractor.extract_text_from_pdf_try, run, try_except.
  rewrite (run_bind (os_path_exists pdf_path) _ w (path_exists w pdf_path)
             [Ok (PathExists pdf_path)] eq_refl).
  rewrite Hex. cbn [negb].
  rewrite (run_bind _ _ w _ _ (fitz_open_run w pdf_path doc Hopen)).
  rewrite !(run_bind _ _ w _ _ (doc_metadata_get_run doc md _ w Hmd)).
  rewrite (run_bind _ _ w _ _ (doc_page_count_run doc _ w Hcount)).
  rewrite (run_bind datetime_now_isoformat _ w (now_isoformat w) [] eq_refl).
  cbv zeta.
  rewrite (run_bind _ _ w _ _ (doc_page_count_run doc _ w Hcount)).
  rewrite (run_bind _ _ w _ _
             (pymupdf_page_loop_readable doc w texts 0%nat [] [] Hpages)).
  rewrite (run_bind _ _ w _ _ (doc_close_run doc w Hclose)).
  cbn [fst snd ret app repeat]. rewrite ?List.app_nil_r. reflexivity.
Qed.

Lemma pdf_extractor_readable_run
    (w : World) (pdf_path : str) (doc : Document) (size : nat)
    (texts : list str) :
  path_exists w pdf_path = true ->
  fitz_open w pdf_path = Returns doc ->
  has_pages doc texts ->
  stat_size w pdf_path = Returns size ->
  close doc = Returns tt ->
  run (PdfExtractor.extract_pdf_text pdf_path) w
  = (Returns
       (JDict
          [("success", JBool true);
           ("text",
            JStr (strip (List.concat (map (fun t => t ++ nl) texts))));
           ("totalCharacters",
            JInt (List.length
                    (strip (List.concat (map (fun t => t ++ nl) texts)))));
           ("metadata",
            JDict [("pageCount", JInt (List.length texts));
                   ("fileSize", JInt size);
                   ("extractionMethod", JStr (lit "PyMuPDF-Python"));
                   ("extractionTime", JStr []);
                   ("pages", JList (map JStr texts))])]),
     [Ok (PathExists pdf_path); Ok (FitzOpen pdf_path); Ok DocPageCount]
       ++ page_calls 0 (List.length texts)
       ++ [Ok (PathStat pdf_path); Ok DocPageCount; Ok DocClose]).
Proof.
  intros Hex Hopen [Hcount Hpages] Hstat Hclose.
  unfold PdfExtractor.extract_pdf_text, PdfExtractor.extract_pdf_text_try,
    run, try_except.
  rewrite (run_bind _ _ w _ _
             (proj1 (pathlib_exists_test pdf_path w) Hex)).
  cbn [negb].
  rewrite (run_bind _ _ w _ _ (fitz_open_run w pdf_path doc Hopen)).
  rewrite (run_bind _ _ w _ _ (doc_page_count_run doc _ w Hcount)).
  rewrite (run_bind _ _ w _ _
             (pdf_extractor_page_loop_readable doc w texts 0%nat [] []
                Hpages)).
  rewrite (run_bind _ _ w _ _ (path_stat_run w pdf_path size Hstat)).
  rewrite (run_bind _ _ w _ _ (doc_page_count_run doc _ w Hcount)).
  cbv zeta.
  rewrite (run_bind _ _ w _ _ (doc_close_run doc w Hclose)).
  cbn [fst snd ret app]. rewrite <- ?app_assoc, ?List.app_nil_r. reflexivity.
Qed.

(** *** Blank pages and the exit status of the plain-text script *)

Lemma lstrip_nil_iff (s : str) :
  lstrip s = [] <-> forallb isspace s = true.
Proof.
  induction s as [|c s IH]; simpl; [tauto|].
  destruct (isspace c); simpl; [exact IH|]. split; discriminate.
Qed.

Lemma lstrip_head (s r : str) (c : codepoint) :
  lstrip s = c :: r -> isspace c = false.
Proof.
  induction s as [|d s IH]; simpl; [discriminate|].
  destruct (isspace d) eqn:E; [exact IH|].
  intros H. injection H as <- _. exact E.
Qed.

(** [text.strip()] is empty exactly when every character of [text] is
    white space. *)
Lemma strip_blank (text : str) :
  truthy (strip text) = negb (forallb isspace text).
Proof.
  unfold strip, rstrip.
  destruct (forallb isspace text) eqn:E.
  - apply lstrip_nil_iff in E. now rewrite E.
  - destruct (lstrip text) as [|c r] eqn:L.
    + apply lstrip_nil_iff in L. congruence.
    + apply lstrip_head in L. simpl.
      destruct (lstrip (rev r ++ [c])) as [|d r'] eqn:L'.
      * apply lstrip_nil_iff in L'. rewrite forallb_app in L'.
        simpl in L'. rewrite L in L'.
        rewrite !andb_false_r in L'. discriminate L'.
      * simpl. now destruct (rev r' ++ [d]) eqn:R;
          [apply app_eq_nil in R; destruct R as [_ R]; discriminate R|].
Qed.

Lemma page_parts_all_blank
    (category : codepoint -> general_category)
    (normalize_NFKD : codepoint -> outcome str) (texts : list str) :
  forall first,
    forallb (forallb isspace) texts = true ->
    page_parts category normalize_NFKD first texts = [].
Proof.
  induction texts as [|text rest IH]; intros first H; [reflexivity|].
  simpl in H. apply andb_prop in H. destruct H as [Ht Hr].
  simpl. rewrite strip_blank, Ht. simpl. now apply IH.
Qed.

Lemma page_parts_some_text
    (category : codepoint -> general_category)
    (normalize_NFKD : codepoint -> outcome str) (texts : list str) :
  forall first,
    forallb (forallb isspace) texts = false ->
    truthy (join (nl ++ nl) (page_parts category normalize_NFKD first texts))
    = true.
Proof.
  induction texts as [|text rest IH]; intros first H; [discriminate H|].
  simpl in H. simpl. rewrite strip_blank.
  destruct (forallb isspace text); simpl in *.
  - now apply IH.
  - now destruct (page_parts category normalize_NFKD (S first) rest).
Qed.

(** X11. On a document that opens and whose pages can all be read, the
    script [extract_pdf_text.py] makes its calls in order (open, page
    count, each page loaded and read once, close) and then: if some page
    has a character that is not white space, it prints the assembled
    text on standard output and exits with status 0; if every page is
    blank, or there is no page, it prints "Failed to extract text from
    PDF" on standard error and exits with status 1, although no call
    failed. *)
Theorem plain_main_readable :
  forall (category : codepoint -> general_category)
         (normalize_NFKD : codepoint -> outcome str)
         (w : World) (prog pdf_path : str) (doc : Document)
         (texts : list str),
    fitz_open w pdf_path = Returns doc ->
    has_pages doc texts ->
    close doc = Returns tt ->
    run (ExtractPdfText.main category normalize_NFKD [prog; pdf_path]) w
    = if forallb (forallb isspace) texts
      then (Returns 1%nat,
            ([Ok (FitzOpen pdf_path); Ok DocPageCount]
               ++ page_calls 0 (List.length texts) ++ [Ok DocClose])
              ++ [Stderr (lit "Failed to extract text from PDF")])
      else (Returns 0%nat,
            ([Ok (FitzOpen pdf_path); Ok DocPageCount]
               ++ page_calls 0 (List.length texts) ++ [Ok DocClose])
              ++ [Stdout (join (nl ++ nl)
                            (page_parts category normalize_NFKD 0 texts))]).
Proof.
  intros category normalize_NFKD w prog pdf_path doc texts Hopen Hpages Hclose.
  pose proof (plain_readable_run category normalize_NFKD w pdf_path doc texts
                Hopen Hpages Hclose) as Hrun.
  unfold run in *. unfold ExtractPdfText.main.
  cbn [List.length Nat.eqb negb nth].
  rewrite (run_bind _ _ w _ _ Hrun).
  destruct (forallb (forallb isspace) texts) eqn:E.
  - rewrite (page_parts_all_blank category normalize_NFKD texts 0%nat E).
    reflexivity.
  - rewrite (page_parts_some_text category normalize_NFKD texts 0%nat E).
    reflexivity.
Qed.

Lemma gap_pdf_has_pages :
  has_pages Samples.gap_pdf [lit "A"; lit " " ++ nl; lit "B"].
Proof.
  split; [reflexivity|].
  intros [|[|[|i]]] text H; simpl in H;
    [| | |destruct i; discriminate H];
    injection H as <-; eexists; split; reflexivity.
Qed.

Lemma plain_main_readable_witness :
  run (ExtractPdfText.main Samples.category Samples.normalize_NFKD
         [lit "extract_pdf_text.py"; lit "gap.pdf"]) Samples.sample_world
  = if forallb (forallb isspace) [lit "A"; lit " " ++ nl; lit "B"]
    then (Returns 1%nat,
          ([Ok (FitzOpen (lit "gap.pdf")); Ok DocPageCount]
             ++ page_calls 0 (List.length [lit "A"; lit " " ++ nl; lit "B"])
             ++ [Ok DocClose])
            ++ [Stderr (lit "Failed to extract text from PDF")])
    else (Returns 0%nat,
          ([Ok (FitzOpen (lit "gap.pdf")); Ok DocPageCount]
             ++ page_calls 0 (List.length [lit "A"; lit " " ++ nl; lit "B"])
             ++ [Ok DocClose])
            ++ [Stdout (join (nl ++ nl)
                          (page_parts Samples.category Samples.normalize_NFKD
                             0 [lit "A"; lit " " ++ nl; lit "B"]))]).
Proof.
  apply (plain_main_readable Samples.category Samples.normalize_NFKD
           Samples.sample_world (lit "extract_pdf_text.py") (lit "gap.pdf")
           Samples.gap_pdf [lit "A"; lit " " ++ nl; lit "B"]).
  - reflexivity.
  - exact gap_pdf_has_pages.
  - reflexivity.
Defined.

(** *** What the JSON extractors report for a readable document *)

(** X12. On a file that exists, opens, and whose pages can all be read,
    each extractor makes its outside calls in a fixed order: every page
    is loaded and read exactly once, in page order, and the close is the
    last call.  [pymupdf_extractor.py] reads the metadata seven times and
    the page count twice before the pages; [pdf_extractor.py] takes the
    file size and the page count again after them. *)
Theorem calls_on_readable_document :
  forall (category : codepoint -> general_category)
         (normalize_NFKD : codepoint -> outcome str)
         (w : World) (pdf_path : str) (doc : Document)
         (md : list (String.string * str)) (size : nat) (texts : list str),
    path_exists w pdf_path = true ->
    fitz_open w pdf_path = Returns doc ->
    metadata doc = Returns md ->
    has_pages doc texts ->
    stat_size w pdf_path = Returns size ->
    close doc = Returns tt ->
    trace_of (ExtractPdfText.extract_pdf_text category normalize_NFKD
                pdf_path) w
    = [Ok (FitzOpen pdf_path); Ok DocPageCount]
        ++ page_calls 0 (List.length texts) ++ [Ok DocClose]
    /\ trace_of (PymupdfExtractor.extract_text_from_pdf pdf_path) w
       = [Ok (PathExists pdf_path); Ok (FitzOpen pdf_path)]
           ++ repeat (Ok DocMetadata) 7
           ++ [Ok DocPageCount; Ok DocPageCount]
           ++ page_calls 0 (List.length texts) ++ [Ok DocClose]
    /\ trace_of (PdfExtractor.extract_pdf_text pdf_path) w
       = [Ok (PathExists pdf_path); Ok (FitzOpen pdf_path); Ok DocPageCount]
           ++ page_calls 0 (List.length texts)
           ++ [Ok (PathStat pdf_path); Ok DocPageCount; Ok DocClose].
Proof.
  intros category normalize_NFKD w pdf_path doc md size texts
         Hex Hopen Hmd Hpages Hstat Hclose.
  unfold trace_of. repeat split.
  - now rewrite (plain_readable_run category normalize_NFKD w pdf_path doc
                   texts Hopen Hpages Hclose).
  - now rewrite (pymupdf_readable_run w pdf_path doc md texts
                   Hex Hopen Hmd Hpages Hclose).
  - now rewrite (pdf_extractor_readable_run w pdf_path doc size texts
                   Hex Hopen Hpages Hstat Hclose).
Qed.

Lemma calls_on_readable_document_witness :
  trace_of (ExtractPdfText.extract_pdf_text Samples.category
              Samples.normalize_NFKD (lit "gap.pdf")) Samples.sample_world
  = [Ok (FitzOpen (lit "gap.pdf")); Ok DocPageCount]
      ++ page_calls 0 (List.length [lit "A"; lit " " ++ nl; lit "B"])
      ++ [Ok DocClose]
  /\ trace_of (PymupdfExtractor.extract_text_from_pdf (lit "gap.pdf"))
              Samples.sample_world
     = [Ok (PathExists (lit "gap.pdf")); Ok (FitzOpen (lit "gap.pdf"))]
         ++ repeat (Ok DocMetadata) 7
         ++ [Ok DocPageCount; Ok DocPageCount]
         ++ page_calls 0 (List.length [lit "A"; lit " " ++ nl; lit "B"])
         ++ [Ok DocClose]
  /\ trace_of (PdfExtractor.extract_pdf_text (lit "gap.pdf"))
              Samples.sample_world
     = [Ok (PathExists (lit "gap.pdf")); Ok (FitzOpen (lit "gap.pdf"));
        Ok DocPageCount]
         ++ page_calls 0 (List.length [lit "A"; lit " " ++ nl; lit "B"])
         ++ [Ok (PathStat (lit "gap.pdf")); Ok DocPageCount; Ok DocClose].
Proof.
  apply (calls_on_readable_document Samples.category Samples.normalize_NFKD
           Samples.sample_world (lit "gap.pdf") Samples.gap_pdf [] 1024%nat
           [lit "A"; lit " " ++ nl; lit "B"]).
  - reflexivity.
  - reflexivity.
  - reflexivity.
  - exact gap_pdf_has_pages.
  - reflexivity.
  - reflexivity.
Defined.

(** X13. On a file that exists, opens, and whose pages can all be read,
    [extract_text_from_pdf] reports success with a null error;
    [pages] has one record for every page, blank or not, numbered from 1,
    with the raw page text and its length; [text] is the ASCII part of
    the stripped concatenation of the pages, each under its
    "=== PAGE n ===" line; [totalCharacters] is the length of [text] and
    [pageCount] the number of pages. *)
Theorem pymupdf_result_on_readable_document :
  forall (w : World) (pdf_path : str) (doc : Document)
         (md : list (String.string * str)) (texts : list str),
    path_exists w pdf_path = true ->
    fitz_open w pdf_path = Returns doc ->
    metadata doc = Returns md ->
    has_pages doc texts ->
    close doc = Returns tt ->
    exists j meta,
      result_of (PymupdfExtractor.extract_text_from_pdf pdf_path) w = Returns j
      /\ dict_get "success" j = Some (JBool true)
      /\ dict_get "error" j = Some JNull
      /\ dict_get "pages" j = Some (JList (imap page_record 0 texts))
      /\ dict_get "text" j
         = Some (JStr (encode_ascii_ignore
                         (strip (List.concat (imap page_segment 0 texts)))))
      /\ dict_get "totalCharacters" j
         = Some (JInt (List.length
                         (encode_ascii_ignore
                            (strip (List.concat
                                      (imap page_segment 0 texts))))))
      /\ dict_get "metadata" j = Some meta
      /\ dict_get "pageCount" meta = Some (JInt (List.length texts)).
Proof.
  intros w pdf_path doc md texts Hex Hopen Hmd Hpages Hclose.
  unfold result_of.
  rewrite (pymupdf_readable_run w pdf_path doc md texts
             Hex Hopen Hmd Hpages Hclose).
  eexists. eexists. split; [reflexivity|]. repeat split.
Qed.

Lemma pymupdf_result_on_readable_document_witness :
  exists j meta,
    result_of (PymupdfExtractor.extract_text_from_pdf (lit "gap.pdf"))
              Samples.sample_world = Returns j
    /\ dict_get "success" j = Some (JBool true)
    /\ dict_get "error" j = Some JNull
    /\ dict_get "pages" j
       = Some (JList (imap page_record 0 [lit "A"; lit " " ++ nl; lit "B"]))
    /\ dict_get "text" j
       = Some (JStr (encode_ascii_ignore
                       (strip (List.concat
                                 (imap page_segment 0
                                    [lit "A"; lit " " ++ nl; lit "B"])))))
    /\ dict_get "totalCharacters" j
       = Some (JInt (List.length
                       (encode_ascii_ignore
                          (strip (List.concat
                                    (imap page_segment 0
                                       [lit "A"; lit " " ++ nl; lit "B"]))))))
    /\ dict_get "metadata" j = Some meta
    /\ dict_get "pageCount" meta
       = Some (JInt (List.length [lit "A"; lit " " ++ nl; lit "B"])).
Proof.
  apply (pymupdf_result_on_readable_document Samples.sample_world
           (lit "gap.pdf") Samples.gap_pdf []
           [lit "A"; lit " " ++ nl; lit "B"]).
  - reflexivity.
  - reflexivity.
  - reflexivity.
  - exact gap_pdf_has_pages.
  - reflexivity.
Defined.

(** X14. In that success result each of the seven metadata fields copied
    from the document (title, author, subject, creator, producer,
    creationDate, modDate) holds the document's value for the key, and
    the empty string when the document's metadata has no such key;
    [extractionMethod] is "PyMuPDF" and [extractionTime] the time of the
    run. *)
Theorem pymupdf_metadata_fields :
  forall (w : World) (pdf_path : str) (doc : Document)
         (md : list (String.string * str)) (texts : list str),
    path_exists w pdf_path = true ->
    fitz_open w pdf_path = Returns doc ->
    metadata doc = Returns md ->
    has_pages doc texts ->
    close doc = Returns tt ->
    exists j meta,
      result_of (PymupdfExtractor.extract_text_from_pdf pdf_path) w = Returns j
      /\ dict_get "metadata" j = Some meta
      /\ (forall key,
             In key ["title"; "author"; "subject"; "creator"; "producer";
                     "creationDate"; "modDate"] ->
             dict_get key meta
             = Some (JStr (match assoc key md with
                           | Some value => value
                           | None => []
                           end)))
      /\ dict_get "extractionMethod" meta = Some (JStr (lit "PyMuPDF"))
      /\ dict_get "extractionTime" meta = Some (JStr (now_isoformat w)).
Proof.
  intros w pdf_path doc md texts Hex Hopen Hmd Hpages Hclose.
  unfold result_of.
  rewrite (pymupdf_readable_run w pdf_path doc md texts
             Hex Hopen Hmd Hpages Hclose).
  eexists. eexists. split; [reflexivity|]. split; [reflexivity|].
  split; [|split; reflexivity].
  intros key Hkey. simpl in Hkey.
  repeat (destruct Hkey as [<-|Hkey]; [reflexivity|]). contradiction.
Qed.

Lemma pymupdf_metadata_fields_witness :
  exists j meta,
    result_of (PymupdfExtractor.extract_text_from_pdf (lit "hello.pdf"))
              Samples.sample_world = Returns j
    /\ dict_get "metadata" j = Some meta
    /\ (forall key,
           In key ["title"; "author"; "subject"; "creator"; "producer";
                   "creationDate"; "modDate"] ->
           dict_get key meta
           = Some (JStr (match assoc key (@nil (String.string * str)) with
                         | Some value => value
                         | None => []
                         end)))
    /\ dict_get "extractionMethod" meta = Some (JStr (lit "PyMuPDF"))
    /\ dict_get "extractionTime" meta
       = Some (JStr (now_isoformat Samples.sample_world)).
Proof.
  apply (pymupdf_metadata_fields Samples.sample_world (lit "hello.pdf")
           Samples.hello_pdf [] [lit "Hello"]).
  - reflexivity.
  - reflexivity.
  - reflexivity.
  - split; [reflexivity|].
    intros [|i] text H; simpl in H; [|destruct i; discriminate H].
    injection H as <-. eexists. split; reflexivity.
  - reflexivity.
Defined.

(** X15. On a file that exists, opens, whose pages can all be read and
    whose size can be taken, [pdf_extractor.py] reports success; [text]
    is the stripped concatenation of the page texts, each followed by a
    line feed, with no page markers; [totalCharacters] is its length;
    [metadata] holds the page count, the file size, and under [pages]
    the raw page texts in order. *)
Theorem pdf_extractor_result_on_readable_document :
  forall (w : World) (pdf_path : str) (doc : Document) (size : nat)
         (texts : list str),
    path_exists w pdf_path = true ->
    fitz_open w pdf_path = Returns doc ->
    has_pages doc texts ->
    stat_size w pdf_path = Returns size ->
    close doc = Returns tt ->
    exists j meta,
      result_of (PdfExtractor.extract_pdf_text pdf_path) w = Returns j
      /\ dict_get "success" j = Some (JBool true)
      /\ dict_get "error" j = None
      /\ dict_get "text" j
         = Some (JStr (strip (List.concat (map (fun t => t ++ nl) texts))))
      /\ dict_get "totalCharacters" j
         = Some (JInt (List.length
                         (strip (List.concat
                                   (map (fun t => t ++ nl) texts)))))
      /\ dict_get "metadata" j = Some meta
      /\ dict_get "pageCount" meta = Some (JInt (List.length texts))
      /\ dict_get "fileSize" meta = Some (JInt size)
      /\ dict_get "pages" meta = Some (JList (map JStr texts)).
Proof.
  intros w pdf_path doc size texts Hex Hopen Hpages Hstat Hclose.
  unfold result_of.
  rewrite (pdf_extractor_readable_run w pdf_path doc size texts
             Hex Hopen Hpages Hstat Hclose).
  eexists. eexists. split; [reflexivity|]. repeat split.
Qed.

Lemma pdf_extractor_result_on_readable_document_witness :
  exists j meta,
    result_of (PdfExtractor.extract_pdf_text (lit "gap.pdf"))
              Samples.sample_world = Returns j
    /\ dict_get "success" j = Some (JBool true)
    /\ dict_get "error" j = None
    /\ dict_get "text" j
       = Some (JStr (strip (List.concat
                              (map (fun t => t ++ nl)
                                   [lit "A"; lit " " ++ nl; lit "B"]))))
    /\ dict_get "totalCharacters" j
       = Some (JInt (List.length
                       (strip (List.concat
                                 (map (fun t => t ++ nl)
                                      [lit "A"; lit " " ++ nl; lit "B"])))))
    /\ dict_get "metadata" j = Some meta
    /\ dict_get "pageCount" meta
       = Some (JInt (List.length [lit "A"; lit " " ++ nl; lit "B"]))
    /\ dict_get "fileSize" meta = Some (JInt 1024)
    /\ dict_get "pages" meta
       = Some (JList (map JStr [lit "A"; lit " " ++ nl; lit "B"])).
Proof.
  apply (pdf_extractor_result_on_readable_document Samples.sample_world
           (lit "gap.pdf") Samples.gap_pdf 1024%nat
           [lit "A"; lit " " ++ nl; lit "B"]).
  - reflexivity.
  - reflexivity.
  - exact gap_pdf_has_pages.
  - reflexivity.
  - reflexivity.
Defined.

(** ** What every JSON result has *)

Lemma pymupdf_try_core_fields (pdf_path : str) :
  on_return has_core_fields
            (PymupdfExtractor.extract_text_from_pdf_try pdf_path).
Proof.
  unfold PymupdfExtractor.extract_text_from_pdf_try.
  repeat first [ apply on_return_ret
               | apply on_return_bind; [intros ? ? ? H; exact H|intros]
               | branch ].
  - exists false. do 2 eexists. repeat split. intros _. eexists. reflexivity.
  - exists true. do 2 eexists. repeat split. discriminate.
Qed.

Lemma pdf_extractor_try_core_fields (pdf_path : str) :
  on_return has_core_fields (PdfExtractor.extract_pdf_text_try pdf_path).
Proof.
  unfold PdfExtractor.extract_pdf_text_try.
  repeat first [ apply on_return_ret
               | apply on_return_bind; [intros ? ? ? H; exact H|intros]
               | branch ].
  - exists false. do 2 eexists. repeat split. intros _. eexists. reflexivity.
  - exists true. do 2 eexists. repeat split. discriminate.
Qed.

(** X16. Every result of the two JSON extractors, success or failure, has
    a boolean [success], a string [text] and a dict [metadata]; when
    [success] is false it also has a string [error]. *)
Theorem json_result_core_fields :
  forall (extractor : str -> M json) (w : World) (pdf_path : str),
    In extractor json_extractors ->
    exists j b text fields,
      result_of (extractor pdf_path) w = Returns j
      /\ dict_get "success" j = Some (JBool b)
      /\ dict_get "text" j = Some (JStr text)
      /\ dict_get "metadata" j = Some (JDict fields)
      /\ (b = false -> exists msg, dict_get "error" j = Some (JStr msg)).
Proof.
  intros extractor w pdf_path [<-|[<-|[]]].
  - destruct (pymupdf_extractor_returns w pdf_path) as [j Hj].
    exists j. pose proof Hj as Hres.
    unfold PymupdfExtractor.extract_text_from_pdf in Hres.
    apply (try_except_on_return has_core_fields) in Hres.
    + destruct Hres as (b & text & fields & H). exists b, text, fields.
      now split.
    + apply pymupdf_try_core_fields.
    + intros e ev. exists false. do 2 eexists. repeat split.
      intros _. eexists. reflexivity.
  - destruct (pdf_extractor_returns w pdf_path) as [j Hj].
    exists j. pose proof Hj as Hres.
    unfold PdfExtractor.extract_pdf_text in Hres.
    apply (try_except_on_return has_core_fields) in Hres.
    + destruct Hres as (b & text & fields & H). exists b, text, fields.
      now split.
    + apply pdf_extractor_try_core_fields.
    + intros e ev. exists false. do 2 eexists. repeat split.
      intros _. eexists. reflexivity.
Qed.

Lemma json_result_core_fields_witness :
  exists j b text fields,
    result_of (PdfExtractor.extract_pdf_text (lit "corrupt.pdf"))
              Samples.sample_world = Returns j
    /\ dict_get "success" j = Some (JBool b)
    /\ dict_get "text" j = Some (JStr text)
    /\ dict_get "metadata" j = Some (JDict fields)
    /\ (b = false -> exists msg, dict_get "error" j = Some (JStr msg)).
Proof.
  apply (json_result_core_fields PdfExtractor.extract_pdf_text
           Samples.sample_world (lit "corrupt.pdf")).
  simpl. auto.
Defined.






Lemma pymupdf_try_ascii_text (pdf_path : str) :
  on_return ascii_text (PymupdfExtractor.extract_text_from_pdf_try pdf_path).
Proof.
  unfold PymupdfExtractor.extract_text_from_pdf_try.
  repeat first [ apply on_return_ret
               | apply on_return_bind; [intros ? ? ? H; exact H|intros]
               | branch ];
    intros text H; simpl in H; injection H as <-.
  - constructor.
  - apply encode_ascii_ignore_ascii.
Qed.

(** X18. The [text] that [extract_text_from_pdf] returns, on success or
    on failure, holds ASCII characters only: whatever else the pages
    contain is dropped from [text] (the page records keep the raw page
    texts). *)
Theorem pymupdf_text_is_ascii :
  forall (w : World) (pdf_path : str) (j : json) (text : str),
    result_of (PymupdfExtractor.extract_text_from_pdf pdf_path) w = Returns j ->
    dict_get "text" j = Some (JStr text) ->
    Forall (fun c => c < 128) text.
Proof.
  intros w pdf_path j text Hres.
  unfold PymupdfExtractor.extract_text_from_pdf in Hres.
  apply (try_except_on_return ascii_text) in Hres.
  - exact (Hres text).
  - apply pymupdf_try_ascii_text.
  - intros e ev t H. simpl in H. injection H as <-. constructor.
Qed.

Lemma pymupdf_text_is_ascii_witness :
  Forall (fun c => c < 128) (lit "=== PAGE 1 ===" ++ nl ++ lit "Hello").
Proof.
  apply (pymupdf_text_is_ascii Samples.sample_world (lit "hello.pdf")
           (JDict
              [("success", JBool true);
               ("error", JNull);
               ("text", JStr (lit "=== PAGE 1 ===" ++ nl ++ lit "Hello"));
               ("metadata",
                JDict [("title", JStr []);
                       ("author", JStr []);
                       ("subject", JStr []);
                       ("creator", JStr []);
                       ("producer", JStr []);
                       ("creationDate", JStr []);
                       ("modDate", JStr []);
                       ("pageCount", JInt 1);
                       ("extractionMethod", JStr (lit "PyMuPDF"));
                       ("extractionTime", JStr (lit "2024-01-01T00:00:00"))]);
               ("pages",
                JList [JDict [("pageNumber", JInt 1);
                              ("text", JStr (lit "Hello"));
                              ("charCount", JInt 5)]]);
               ("totalCharacters", JInt 20);
               ("processingTime", JStr (lit "local"))])).
  - reflexivity.
  - reflexivity.
Defined.

(** X19. Given one path argument, the two JSON scripts print the result
    of the extraction as their last action and exit with status 0,
    whether the extraction succeeded or failed. *)
Theorem json_mains_exit_0 :
  forall (w : World) (argv : list str),
    List.length argv = 2%nat ->
    (exists j,
        result_of (PymupdfExtractor.extract_text_from_pdf (nth 1 argv [])) w
        = Returns j
        /\ run (PymupdfExtractor.main argv) w
           = (Returns 0%nat,
              trace_of (PymupdfExtractor.extract_text_from_pdf
                          (nth 1 argv [])) w
                ++ [StdoutJson j]))
    /\ (exists j,
           result_of (PdfExtractor.extract_pdf_text (nth 1 argv [])) w
           = Returns j
           /\ run (PdfExtractor.main argv) w
              = (Returns 0%nat,
                 trace_of (PdfExtractor.extract_pdf_text (nth 1 argv [])) w
                   ++ [StdoutJson j])).
Proof.
  intros w argv Hlen. split.
  - destruct (pymupdf_extractor_returns w (nth 1 argv [])) as [j Hj].
    exists j. split; [exact Hj|].
    unfold PymupdfExtractor.main. rewrite Hlen. cbn [Nat.ltb Nat.leb].
    now rewrite (bind_result _ _ w j Hj).
  - destruct (pdf_extractor_returns w (nth 1 argv [])) as [j Hj].
    exists j. split; [exact Hj|].
    unfold PdfExtractor.main. rewrite Hlen. cbn [Nat.eqb negb].
    now rewrite (bind_result _ _ w j Hj).
Qed.

Lemma json_mains_exit_0_witness :
  (exists j,
      result_of (PymupdfExtractor.extract_text_from_pdf
                   (nth 1 [lit "prog"; lit "corrupt.pdf"] []))
                Samples.sample_world
      = Returns j
      /\ run (PymupdfExtractor.main [lit "prog"; lit "corrupt.pdf"])
             Samples.sample_world
         = (Returns 0%nat,
            trace_of (PymupdfExtractor.extract_text_from_pdf
                        (nth 1 [lit "prog"; lit "corrupt.pdf"] []))
                     Samples.sample_world
              ++ [StdoutJson j]))
  /\ (exists j,
         result_of (PdfExtractor.extract_pdf_text
                      (nth 1 [lit "prog"; lit "corrupt.pdf"] []))
                   Samples.sample_world
         = Returns j
         /\ run (PdfExtractor.main [lit "prog"; lit "corrupt.pdf"])
                Samples.sample_world
            = (Returns 0%nat,
               trace_of (PdfExtractor.extract_pdf_text
                           (nth 1 [lit "prog"; lit "corrupt.pdf"] []))
                        Samples.sample_world
                 ++ [StdoutJson j])).
Proof.
  apply (json_mains_exit_0 Samples.sample_world
           [lit "prog"; lit "corrupt.pdf"]).
  reflexivity.
Defined.
